(** * LabFlow: the experiment analysis modal

    A shallow embedding of the client-side analysis engine of
    [ExperimentAnalysisModal]: the per-parameter descriptive statistics, the
    pairwise correlations and the SVG chart ([SVGChart], [ChartsTab]).

    JavaScript numbers are IEEE 754 binary64 values.  The numeric kernel
    ([paramStats], [statisticsOf], [correlations]) is written once, over an
    interface [Number] of the arithmetic the source uses, and is run at two
    instances:
    - [Binary64]: Rocq's primitive floats, bit for bit the arithmetic of the
      source; every concrete run of the program below is computed there;
    - [Exact]: the real numbers, the arithmetic with rounding and overflow
      taken away, in which the algebraic laws of the statistics are proved.

    Left outside the model: the React state and rendering around these
    computations, the formatting of numbers as text, and the engine's limit
    on the number of arguments of a call ([Math.min(...values)] on a very
    long array). *)

From Stdlib Require Import ZArith Floats Reals Lra Lia Psatz Ascii Sorted.
From stdpp Require Import gmap strings list.

Set Default Proof Using "Type".
Set Warnings "-register-all".

(** ** The arithmetic of the source *)

(** What the analysis code asks of a JavaScript number. *)
Class Number (F : Type) := {
  (** the value of the decimal literal [m]e[e], i.e. m * 10^e *)
  literal : Z -> Z -> F;
  add : F -> F -> F;
  sub : F -> F -> F;
  mul : F -> F -> F;
  div : F -> F -> F;
  (** [Math.sqrt], [Math.abs] *)
  Math_sqrt : F -> F;
  Math_abs : F -> F;
  (** [Math.min(a, b)], [Math.max(a, b)] *)
  Math_min2 : F -> F -> F;
  Math_max2 : F -> F -> F;
  (** [a < b] and [a === b] *)
  ltb : F -> F -> bool;
  eqb : F -> F -> bool
}.

Declare Scope num_scope.
Delimit Scope num_scope with num.
Infix "+" := add : num_scope.
Infix "-" := sub : num_scope.
Infix "*" := mul : num_scope.
Infix "/" := div : num_scope.
Infix "<?" := ltb : num_scope.
Notation "a >? b" := (ltb b a) (at level 70) : num_scope.
Notation "a !== b" := (negb (eqb a b)) (at level 70) : num_scope.

(** The number of an array length or index. *)
Definition of_nat `{Number F} (n : nat) : F := literal (Z.of_nat n) 0.

(** [Math.pow(x, 2)], taken as the product x * x. *)
Definition pow2 `{Number F} (x : F) : F := (x * x)%num.

(** ** Data model *)

Module Param.
(** An experiment parameter [{ name, unit }]: a column of the data table. *)
Record t := mk { name : string; unit : option string }.
End Param.

(** Strength label of a correlation. *)
Inductive Strength := strong | moderate | weak.

Module Stats.
(** The statistics object stored under a parameter's name. *)
Record t (F : Type) := mk {
  n : nat;
  mean : F;
  median : F;
  min : F;
  max : F;
  range : F;
  stdDev : F;
  variance : F;
  cv : F;
  trend : F;
  values : list F
}.
Arguments mk {F}.
Arguments n {F}.
Arguments mean {F}.
Arguments median {F}.
Arguments min {F}.
Arguments max {F}.
Arguments range {F}.
Arguments stdDev {F}.
Arguments variance {F}.
Arguments cv {F}.
Arguments trend {F}.
Arguments values {F}.
End Stats.

Module Corr.
(** The object stored under the key [`${p1}-${p2}`]. *)
Record t (F : Type) := mk {
  param1 : string;
  param2 : string;
  value : F;
  strength : Strength
}.
Arguments mk {F}.
Arguments param1 {F}.
Arguments param2 {F}.
Arguments value {F}.
Arguments strength {F}.
End Corr.

Module StatsObject.
(** The object [stats = {}] that the statistics are stored in, with what an
    assignment [stats[name] = v] can change: its own properties and its
    prototype.  It starts with Object.prototype as prototype, whose accessor
    [__proto__] swallows an assignment under that name: the value (an object
    or null) becomes the prototype and no property is stored. *)
Inductive Prototype (F : Type) :=
| Object_prototype
| null_prototype
| stats_prototype (s : Stats.t F).
Arguments Object_prototype {F}.
Arguments null_prototype {F}.
Arguments stats_prototype {F}.

Record t (F : Type) := mk {
  own : gmap string (option (Stats.t F));
  prototype : Prototype F
}.
Arguments mk {F}.
Arguments own {F}.
Arguments prototype {F}.

(** [{}]. *)
Definition empty {F : Type} : t F := mk ∅ Object_prototype.

(** [stats[name] = v], [v] being a statistics object or null.  Any name but
    [__proto__] creates or updates an own property.  Under [__proto__] an
    own property of that name is updated when there is one; otherwise the
    accessor is found on the prototype chain and replaces the prototype,
    unless the prototype is null already, in which case nothing is inherited
    and an ordinary property is created. *)
Definition assign {F : Type} (stats : t F) (name : string) (v : option (Stats.t F)) : t F :=
  if String.eqb name "__proto__" then
    match own stats !! name, prototype stats with
    | Some _, _ | None, null_prototype => mk (<[name := v]> (own stats)) (prototype stats)
    | None, _ =>
        mk (own stats)
           match v with Some s => stats_prototype s | None => null_prototype end
    end
  else mk (<[name := v]> (own stats)) (prototype stats).

(** [stats[name]] read for its truthiness, at a name assigned before (the
    program reads the statistics at the names of its parameters only, after
    every one of them was assigned): an own property gives its value, and
    [__proto__] without an own property gives the prototype; [null] and
    [undefined] both read as [None]. *)
Definition read {F : Type} (stats : t F) (name : string) : option (Stats.t F) :=
  match own stats !! name with
  | Some v => v
  | None =>
      if String.eqb name "__proto__" then
        match prototype stats with
        | stats_prototype s => Some s
        | _ => None
        end
      else None
  end.
End StatsObject.

(** ** The numeric kernel, for any [Number] *)

Section Engine.
Context {F : Type} `{Number F}.
Local Open Scope num_scope.

Definition zero : F := literal 0 0.
Definition one : F := literal 1 0.
Definition two : F := literal 2 0.

(** [arr[i]] for an index inside the array (every use below is in range). *)
Definition at_index (arr : list F) (i : nat) : F := nth i arr zero.

(** [arr.reduce((a, b) => a + b, 0)]. *)
Definition sum_of (arr : list F) : F := foldl add zero arr.

(** [[...values].sort(cmp)].  ECMAScript's sort is stable, and with a
    consistent comparator its result does not depend on the algorithm; it is
    written here as a stable insertion sort: an element moves right past the
    elements the comparator puts strictly before it. *)
Fixpoint sort_insert (cmp : F -> F -> F) (x : F) (sorted : list F) : list F :=
  match sorted with
  | [] => [x]
  | y :: rest =>
      if cmp x y >? zero then y :: sort_insert cmp x rest else x :: sorted
  end.

Definition Array_sort (cmp : F -> F -> F) (arr : list F) : list F :=
  foldr (sort_insert cmp) [] arr.

(** The regression loop [values.forEach((y, x) => ...)]: the pair
    (numerator, denominator) after the loop. *)
Definition trend_sums (xMean mean : F) (values : list F) : F * F :=
  foldl (fun acc xy =>
           let '(x, y) := xy in
           (fst acc + (of_nat x - xMean) * (y - mean),
            snd acc + pow2 (of_nat x - xMean)))
        (zero, zero) (imap pair values).

(** The body of [params.forEach] once [values] is known: [None] is the
    [null] stored for a parameter without numeric cells. *)
Definition paramStats (values : list F) : option (Stats.t F) :=
  match values with
  | [] => None
  | v0 :: rest =>
      let n := length values in
      let mean := sum_of values / of_nat n in
      let sortedValues := Array_sort (fun a b => a - b) values in
      let median :=
        if (n mod 2 =? 0)%nat
        then (at_index sortedValues (n / 2 - 1) + at_index sortedValues (n / 2)) / two
        else at_index sortedValues (n / 2) in
      let min := foldl Math_min2 v0 rest in
      let max := foldl Math_max2 v0 rest in
      let range := max - min in
      let variance :=
        foldl (fun sum v => sum + pow2 (v - mean)) zero values / of_nat n in
      let stdDev := Math_sqrt variance in
      let cv := (stdDev / mean) * literal 100 0 in
      let trend :=
        if (1 <? n)%nat then
          let xMean := (of_nat n - one) / two in
          let '(numerator, denominator) := trend_sums xMean mean values in
          if denominator !== zero then numerator / denominator else zero
        else zero in
      Some (Stats.mk n mean median min max range stdDev variance cv trend values)
  end.

(** [statistics]: [params.forEach] assigns [stats[param.name]] for each
    parameter in turn; [column name] is the filtered sequence
    [data.map(row => parseFloat(row[name])).filter(v => !isNaN(v))] of that
    parameter.  A later parameter of the same name assigns again, with the
    same value. *)
Definition statisticsOf (column : string -> list F) (params : list Param.t)
  : StatsObject.t F :=
  foldl (fun stats param =>
           StatsObject.assign stats (Param.name param)
                              (paramStats (column (Param.name param))))
        StatsObject.empty params.

(** [statistics[p]] as the program reads it, for the name of a parameter. *)
Definition stats_at (statistics : StatsObject.t F) (p : string)
  : option (Stats.t F) :=
  StatsObject.read statistics p.

(** The index pairs [i < j] of the two nested loops, in loop order. *)
Fixpoint pairs {A : Type} (l : list A) : list (A * A) :=
  match l with
  | [] => []
  | x :: rest => map (pair x) rest ++ pairs rest
  end.

(** The key [`${p1}-${p2}`]. *)
Definition corr_key (p1 p2 : string) : string := p1 +:+ "-" +:+ p2.

Definition strength_of (correlation : F) : Strength :=
  if Math_abs correlation >? literal 7 (-1) then strong
  else if Math_abs correlation >? literal 4 (-1) then moderate
  else weak.

(** The inner loop [for (k = 0; k < n; k++) sum += ...]. *)
Definition corr_sum (n : nat) (v1 v2 : list F) (mean1 mean2 : F) : F :=
  foldl (fun sum k => sum + (at_index v1 k - mean1) * (at_index v2 k - mean2))
        zero (seq 0 n).

(** The body of the inner [for j] loop for the pair (p1, p2). *)
Definition corr_step (statistics : StatsObject.t F)
    (corrs : gmap string (Corr.t F)) (p : string * string)
  : gmap string (Corr.t F) :=
  let '(p1, p2) := p in
  match stats_at statistics p1, stats_at statistics p2 with
  | Some s1, Some s2 =>
      let v1 := Stats.values s1 in
      let v2 := Stats.values s2 in
      let n := Nat.min (length v1) (length v2) in
      if (n <? 2)%nat then corrs
      else
        let mean1 := Stats.mean s1 in
        let mean2 := Stats.mean s2 in
        let std1 := Stats.stdDev s1 in
        let std2 := Stats.stdDev s2 in
        let sum := corr_sum n v1 v2 mean1 mean2 in
        let correlation :=
          if (std1 >? zero) && (std2 >? zero)
          then sum / (of_nat n * std1 * std2)
          else zero in
        <[corr_key p1 p2 := Corr.mk p1 p2 correlation (strength_of correlation)]> corrs
  | _, _ => corrs
  end.

(** [correlations]. *)
Definition correlations (params : list Param.t)
    (statistics : StatsObject.t F) : gmap string (Corr.t F) :=
  let paramNames := map Param.name params in
  foldl (corr_step statistics) ∅ (pairs paramNames).

(** The value the loop body computes for two statistics objects. *)
Definition corr_value (s1 s2 : Stats.t F) : F :=
  let n := Nat.min (length (Stats.values s1)) (length (Stats.values s2)) in
  if (Stats.stdDev s1 >? zero) && (Stats.stdDev s2 >? zero)
  then corr_sum n (Stats.values s1) (Stats.values s2) (Stats.mean s1) (Stats.mean s2)
       / (of_nat n * Stats.stdDev s1 * Stats.stdDev s2)
  else zero.

(** What holds of every entry of [correlations]: it was written by the loop
    body for its own two parameters, which both have statistics and at least
    two values each. *)
Definition entry_ok (statistics : StatsObject.t F)
    (key : string) (e : Corr.t F) : Prop :=
  exists s1 s2,
    stats_at statistics (Corr.param1 e) = Some s1
    /\ stats_at statistics (Corr.param2 e) = Some s2
    /\ (2 <= Nat.min (length (Stats.values s1)) (length (Stats.values s2)))%nat
    /\ key = corr_key (Corr.param1 e) (Corr.param2 e)
    /\ Corr.value e = corr_value s1 s2
    /\ Corr.strength e = strength_of (Corr.value e).

(** A pair of the loop that reaches the assignment [corrs[key] = ...]. *)
Definition qualifying (statistics : StatsObject.t F)
    (p : string * string) : bool :=
  match stats_at statistics (fst p), stats_at statistics (snd p) with
  | Some s1, Some s2 =>
      negb (Nat.min (length (Stats.values s1)) (length (Stats.values s2)) <? 2)%nat
  | _, _ => false
  end.

End Engine.

(** ** The binary64 instance: the program as it runs *)

Module Binary64.

(** The binary64 value nearest to m * 10^e, negated when [negative] (ties to
    even), computed on integers by the reference rounding of [SpecFloat]:
    the value a decimal numeral denotes, in the source text and in
    [parseFloat]. *)
Definition of_decimal (negative : bool) (m : Z) (e : Z) : float :=
  match m with
  | Zpos p =>
      match e with
      | Zneg k =>
          SF2Prim (SFdiv prec emax (S754_finite negative p 0)
                                   (S754_finite false (10 ^ k) 0))
      | _ =>
          SF2Prim (binary_normalize prec emax
                     (if negative then Zneg (p * Z.to_pos (10 ^ e))
                      else Zpos (p * Z.to_pos (10 ^ e))) 0 false)
      end
  | _ => if negative then neg_zero else PrimFloat.zero
  end.

(** [Math.min] and [Math.max] of two numbers: NaN if either is NaN, and -0
    counts as below +0. *)
Definition Math_min_2 (a b : float) : float :=
  if is_nan a || is_nan b then nan
  else if PrimFloat.ltb a b then a
  else if PrimFloat.ltb b a then b
  else if get_sign a then a else b.

Definition Math_max_2 (a b : float) : float :=
  if is_nan a || is_nan b then nan
  else if PrimFloat.ltb a b then b
  else if PrimFloat.ltb b a then a
  else if get_sign a then b else a.

#[export] Instance binary64 : Number float := {|
  literal m e := of_decimal (m <? 0)%Z (Z.abs m) e;
  add := PrimFloat.add;
  sub := PrimFloat.sub;
  mul := PrimFloat.mul;
  div := PrimFloat.div;
  Math_sqrt := PrimFloat.sqrt;
  Math_abs := PrimFloat.abs;
  Math_min2 := Math_min_2;
  Math_max2 := Math_max_2;
  ltb := PrimFloat.ltb;
  eqb := PrimFloat.eqb
|}.

(** [isNaN(v)] on a number. *)
Definition isNaN (v : float) : bool := is_nan v.

(** *** Cells and [parseFloat] *)

(** A string value is its sequence of UTF-16 code units. *)
Abbreviation JsText := (list N).

(** The code units of a text of ASCII characters. *)
Definition code_units (s : string) : JsText :=
  map N_of_ascii (String.list_ascii_of_string s).

(** What a cell of a data row holds once the JSON of the experiment is
    decoded: a string, a number or null (booleans and nested values are left
    out); a key the row does not have reads as [undefined]. *)
Inductive JsValue :=
| JsString (s : JsText)
| JsNumber (x : float)
| JsNull.

(** A data row: an object from parameter names to raw values. *)
Abbreviation Row := (gmap string JsValue).

(** StrWhiteSpaceChar: WhiteSpace (TAB, VT, FF, SP, NBSP, ZWNBSP and the
    space separators of Unicode) and LineTerminator (LF, CR, LS, PS). *)
Definition is_whitespace (c : N) : bool :=
  ((9 <=? c) && (c <=? 13) || (c =? 32) || (c =? 0xA0) || (c =? 0x1680)
   || (0x2000 <=? c) && (c <=? 0x200A) || (c =? 0x2028) || (c =? 0x2029)
   || (c =? 0x202F) || (c =? 0x205F) || (c =? 0x3000) || (c =? 0xFEFF))%N.

Fixpoint trim_start (s : JsText) : JsText :=
  match s with
  | c :: rest => if is_whitespace c then trim_start rest else s
  | [] => s
  end.

Definition digit_of (c : N) : option Z :=
  let k := Z.of_N c in
  if ((48 <=? k) && (k <=? 57))%Z then Some (k - 48)%Z else None.

(** DecimalDigits_opt at the head of [s]: the digits read are appended to the
    numeral [acc]; returns the numeral, how many digits were read, and the
    rest of the string. *)
Fixpoint take_digits (acc : Z) (count : nat) (s : JsText) : Z * nat * JsText :=
  match s with
  | c :: rest =>
      match digit_of c with
      | Some d => take_digits (10 * acc + d) (S count) rest
      | None => (acc, count, s)
      end
  | [] => (acc, count, s)
  end.

(** The code units of the characters the grammar names. *)
Definition minus_sign : N := 45.
Definition plus_sign : N := 43.
Definition full_stop : N := 46.
Definition letter_e : N := 101.
Definition letter_E : N := 69.

(** ExponentPart_opt at the head of [s]: [e] or [E], an optional sign and at
    least one digit; anything else is no exponent part. *)
Definition take_exponent (s : JsText) : Z :=
  match s with
  | c :: rest =>
      if ((c =? letter_e) || (c =? letter_E))%N then
        let '(negative, digits) :=
          match rest with
          | sign :: r =>
              if (sign =? minus_sign)%N then (true, r)
              else if (sign =? plus_sign)%N then (false, r)
              else (false, rest)
          | [] => (false, rest)
          end in
        let '(e, count, _) := take_digits 0 0 digits in
        if (count =? 0)%nat then 0%Z else if negative then (- e)%Z else e
      else 0%Z
  | [] => 0%Z
  end.

(** [s] starts with the code units of [prefix]. *)
Fixpoint starts_with (prefix s : JsText) : bool :=
  match prefix, s with
  | [], _ => true
  | p :: prefix', c :: rest => (p =? c)%N && starts_with prefix' rest
  | _ :: _, [] => false
  end.

(** The longest prefix of [s] that is a StrUnsignedDecimalLiteral, as a
    number: [Infinity], or digits with an optional fraction and exponent. *)
Definition parse_unsigned (negative : bool) (s : JsText) : float :=
  if starts_with (code_units "Infinity") s then
    if negative then neg_infinity else infinity
  else
    let '(int_part, int_count, s1) := take_digits 0 0 s in
    let '(mantissa, frac_count, s2) :=
      match s1 with
      | c :: after_dot =>
          if (c =? full_stop)%N then take_digits int_part 0 after_dot
          else (int_part, 0%nat, s1)
      | [] => (int_part, 0%nat, s1)
      end in
    if ((int_count =? 0) && (frac_count =? 0))%nat then nan
    else of_decimal negative mantissa (take_exponent s2 - Z.of_nat frac_count).

(** [parseFloat] of a string. *)
Definition parseFloat_text (s : JsText) : float :=
  match trim_start s with
  | c :: rest =>
      if (c =? minus_sign)%N then parse_unsigned true rest
      else if (c =? plus_sign)%N then parse_unsigned false rest
      else parse_unsigned false (c :: rest)
  | [] => parse_unsigned false []
  end.

(** [parseFloat] of a string of ASCII characters. *)
Definition parseFloat_string (s : string) : float :=
  parseFloat_text (code_units s).

(** [parseFloat(row[name])]: the argument is first turned into a string.
    [undefined] and [null] give the strings "undefined" and "null", hence NaN.
    A number prints as the shortest decimal that reads back as itself, so it
    is returned unchanged, except that -0 prints as "0". *)
Definition parseFloat (v : option JsValue) : float :=
  match v with
  | Some (JsString s) => parseFloat_text s
  | Some (JsNumber x) => if is_zero x then PrimFloat.zero else x
  | Some JsNull | None => nan
  end.

(** *** Statistics and correlations of an experiment *)

(** [data.map(row => parseFloat(row[name])).filter(v => !isNaN(v))]. *)
Definition column (data : list Row) (name : string) : list float :=
  filter (fun v => negb (isNaN v) = true)
         (map (fun row : Row => parseFloat (row !! name)) data).

(** The [statistics] memo of the modal. *)
Definition statistics (params : list Param.t) (data : list Row)
  : StatsObject.t float :=
  statisticsOf (column data) params.

(** The [correlations] memo of the modal. *)
Definition correlationsOf (params : list Param.t) (data : list Row)
  : gmap string (Corr.t float) :=
  correlations params (statistics params data).

(** *** The chart *)

Local Open Scope num_scope.

(** A number written as a decimal numeral in the source. *)
Notation "# m" := (literal m%Z 0%Z) (at level 1, format "# m") : num_scope.

(** The text of a label: the number formatting itself is left symbolic. *)
Inductive TextContent :=
| toFixed (v : float) (digits : nat)
| index_label (i : nat).

Inductive PathCommand := M | L.

(** The SVG elements the chart is made of, with the attributes that place
    and style them.  The string [d] of a path is kept as its list of
    commands [`${cmd} ${x} ${y}`]. *)
Inductive Svg :=
| line (x1 y1 x2 y2 : float) (stroke : string)
       (strokeDasharray : option string) (opacity : option float)
| text (x y : float) (textAnchor : string) (content : TextContent)
| path (d : list (PathCommand * float * float)) (stroke : string)
| circle (cx cy : float) (r : string) (fill : string) (opacity : option float)
| rect (x y width height : float) (fill : string) (opacity : float)
| g (children : list Svg).

(** What a chart component returns: the centred grey message, or the
    [<svg>] with its groups. *)
Inductive Rendered :=
| placeholder (message : string)
| svg (children : list Svg).

Definition COLORS : list string :=
  ["#6366f1"; "#22c55e"; "#f59e0b"; "#ef4444"; "#8b5cf6"; "#06b6d4"].

(** [COLORS[i % COLORS.length]]. *)
Definition color_of (i : nat) : string :=
  nth (i mod length COLORS) COLORS "".

Definition width : float := #700.
Definition height : float := #300.
Definition padding_top : float := #20.
Definition padding_right : float := #30.
Definition padding_bottom : float := #40.
Definition padding_left : float := #60.
Definition chartWidth : float := width - padding_left - padding_right.
Definition chartHeight : float := height - padding_top - padding_bottom.

(** [v || 1] on a number: 0, -0 and NaN are falsy. *)
Definition or_one (v : float) : float :=
  if is_nan v || is_zero v then #1 else v.

(** [Math.min(...arr)] and [Math.max(...arr)]: with no argument they are
    +Infinity and -Infinity. *)
Definition Math_min (arr : list float) : float := foldl Math_min_2 infinity arr.
Definition Math_max (arr : list float) : float := foldl Math_max_2 neg_infinity arr.

(** All the numeric cells of the charted parameters, for the shared scale. *)
Definition allValues (data : list Row) (params : list Param.t) : list float :=
  foldl (fun allValues param => allValues ++ column data (Param.name param))
        [] params.

Definition minY (data : list Row) (params : list Param.t) : float :=
  Math_min (allValues data params).
Definition maxY (data : list Row) (params : list Param.t) : float :=
  Math_max (allValues data params).
Definition yRange (data : list Row) (params : list Param.t) : float :=
  or_one (maxY data params - minY data params).

Definition scaleY (data : list Row) (params : list Param.t) (v : float) : float :=
  chartHeight - ((v - minY data params) / yRange data params) * chartHeight.

(** [(i / (data.length - 1 || 1)) * chartWidth]. *)
Definition scaleX (data : list Row) (i : nat) : float :=
  (of_nat i / of_nat (if (length data - 1 =? 0)%nat then 1 else length data - 1))
  * chartWidth.

Definition tickCount : nat := 5.

(** The ticks [{ value, y }] for i = 0 .. tickCount. *)
Definition yTicks (data : list Row) (params : list Param.t) : list (float * float) :=
  map (fun i =>
         let value := minY data params
                      + (yRange data params * of_nat i) / of_nat tickCount in
         (value, scaleY data params value))
      (seq 0 (S tickCount)).

(** [Math.ceil(data.length / 10)]. *)
Definition label_stride (data : list Row) : nat := (length data + 9) / 10.

(** The rows kept by [data.filter((_, i) => i % stride === 0)], then mapped
    with their position [i] in the filtered array. *)
Definition xLabels (data : list Row) : list Svg :=
  let kept := filter (fun i => (i mod label_stride data =? 0)%nat = true)
                     (seq 0 (length data)) in
  imap (fun i _ =>
          let idx := (i * label_stride data)%nat in
          text (padding_left + scaleX data idx) (height - padding_bottom + #20)
               "middle" (index_label (idx + 1)))
       kept.

Module Point.
(** An element of [validPoints]. *)
Record t := mk { x : float; y : float; valid : bool }.
End Point.

Definition validPoints (data : list Row) (params : list Param.t) (param : Param.t)
  : list Point.t :=
  let values := map (fun row : Row => parseFloat (row !! Param.name param)) data in
  imap (fun i v => Point.mk (scaleX data i) (scaleY data params v) (negb (isNaN v)))
       values.

(** The group drawn for one parameter, [None] where the callback returns
    [null]. *)
Definition series (data : list Row) (params : list Param.t) (type : string)
    (paramIndex : nat) (param : Param.t) : option Svg :=
  let color := color_of paramIndex in
  let points := filter (fun p => Point.valid p = true) (validPoints data params param) in
  if String.eqb type "line" then
    let pathData :=
      imap (fun i p => (if (i =? 0)%nat then M else L, Point.x p, Point.y p)) points in
    Some (g (path pathData color
             :: map (fun p => circle (Point.x p) (Point.y p) "4" color None) points))
  else if String.eqb type "bar" then
    let barWidth :=
      (chartWidth / of_nat (length data) / of_nat (length params)) * literal 8 (-1) in
    let offset := of_nat paramIndex * barWidth in
    Some (g (imap (fun i p =>
                     rect (scaleX data i - barWidth * of_nat (length params) / #2 + offset)
                          (Point.y p) barWidth (chartHeight - Point.y p)
                          color (literal 8 (-1)))
                  points))
  else if String.eqb type "scatter" then
    Some (g (map (fun p => circle (Point.x p) (Point.y p) "6" color
                                  (Some (literal 7 (-1))))
                 points))
  else None.

(** The trend line of one parameter, [None] where the callback returns
    [null]. *)
Definition trendLine (data : list Row) (params : list Param.t)
    (statistics : StatsObject.t float)
    (i : nat) (param : Param.t) : option Svg :=
  match stats_at statistics (Param.name param) with
  | None => None
  | Some stats =>
      if Math_abs (Stats.trend stats) <? literal 1 (-1) then None
      else
        let color := color_of i in
        let startY := Stats.mean stats
                      - Stats.trend stats * (of_nat (length data) - #1) / #2 in
        let endY := Stats.mean stats
                    + Stats.trend stats * (of_nat (length data) - #1) / #2 in
        Some (line #0 (scaleY data params startY)
                   chartWidth (scaleY data params endY)
                   color (Some "8") (Some (literal 5 (-1))))
  end.

(** The trend lines of the chart: none unless [type === 'line']. *)
Definition trendLines (data : list Row) (params : list Param.t)
    (statistics : StatsObject.t float) (type : string)
  : list (option Svg) :=
  if String.eqb type "line" then imap (trendLine data params statistics) params
  else [].

(** React renders nothing for a [null] child. *)
Definition without_null (children : list (option Svg)) : list Svg :=
  omap (fun child => child) children.

(** [SVGChart({ data, params, statistics, type })]. *)
Definition SVGChart (data : list Row) (params : list Param.t)
    (statistics : StatsObject.t float) (type : string)
  : Rendered :=
  if (length data =? 0)%nat || (length params =? 0)%nat then
    placeholder "No data to display"
  else
    let ticks := yTicks data params in
    svg [
      (* grid lines *)
      g (map (fun tick => line padding_left (padding_top + snd tick)
                               (width - padding_right) (padding_top + snd tick)
                               "#e5e7eb" (Some "4") None) ticks);
      (* Y axis *)
      g (line padding_left padding_top padding_left (height - padding_bottom)
              "#9ca3af" None None
         :: map (fun tick => text (padding_left - #10) (padding_top + snd tick + #4)
                                  "end" (toFixed (fst tick) 1)) ticks);
      (* X axis *)
      g (line padding_left (height - padding_bottom)
              (width - padding_right) (height - padding_bottom)
              "#9ca3af" None None
         :: xLabels data);
      (* data, translated by (padding.left, padding.top) *)
      g (without_null (imap (series data params type) params)
         ++ without_null (trendLines data params statistics type))
    ].

(** The chart card of [ChartsTab]. *)
Definition ChartsTab (params : list Param.t) (data : list Row)
    (statistics : StatsObject.t float)
    (selectedParams : list string) (chartType : string) : Rendered :=
  if (0 <? length selectedParams)%nat then
    SVGChart data
             (filter (fun p => Param.name p ∈ selectedParams) params)
             statistics chartType
  else placeholder "Select parameters to visualize".

(** The chart the modal shows for an experiment: [ChartsTab] fed with the
    modal's own [statistics]. *)
Definition renderChart (params : list Param.t) (data : list Row)
    (selectedParams : list string) (chartType : string) : Rendered :=
  ChartsTab params data (statistics params data) selectedParams chartType.

(** *** Vocabulary of the statements about runs *)

(** A row written as an object literal with string cells. *)
Definition row_of (cells : list (string * string)) : Row :=
  list_to_map (map (fun cell => (fst cell, JsString (code_units (snd cell)))) cells).

(** A parameter without unit. *)
Definition param (name : string) : Param.t := Param.mk name None.

(** [|x - target| < tolerance]. *)
Definition near (x target tolerance : float) : bool :=
  PrimFloat.ltb (PrimFloat.abs (PrimFloat.sub x target)) tolerance.

(** The cells of a column that parse to a finite number: the sequence a
    filter on finiteness would keep. *)
Definition finite_cells (data : list Row) (name : string) : list float :=
  filter (fun v => is_finite v = true)
         (map (fun row : Row => parseFloat (row !! name)) data).

(** A finite binary64 as an integer, in units of 2^-1074 (the smallest
    positive binary64): the real number it stands for, without rounding. *)
Definition scaled (x : float) : option Z :=
  match Prim2SF x with
  | S754_zero _ => Some 0%Z
  | S754_finite negative m e =>
      Some ((if negative then Zneg m else Zpos m) * 2 ^ (e + 1074))%Z
  | _ => None
  end.

(** As real numbers, each element of [V] is its predecessor plus [d]. *)
Fixpoint arithmetic_exactly (d : float) (V : list float) : bool :=
  match V with
  | x :: (y :: _) as rest =>
      match scaled x, scaled y, scaled d with
      | Some a, Some b, Some c => (b - a =? c)%Z
      | _, _, _ => false
      end && arithmetic_exactly d rest
  | _ => true
  end.

End Binary64.

(** ** The exact instance: the same code over the real numbers

    There is no NaN and no infinity here: a quotient by zero is whatever
    [Rdiv] makes of it.  The statements proved in this instance only read
    quotients whose divisor the code has tested, or that is a positive
    count. *)

Module Exact.

(** m * 10^e as a real number. *)
Definition decimal (m e : Z) : R :=
  match e with
  | Zneg k => (IZR m / IZR (Zpos (10 ^ k)))%R
  | _ => IZR (m * 10 ^ e)
  end.

Definition Rltb (a b : R) : bool := if Rlt_dec a b then true else false.
Definition Reqb (a b : R) : bool := if Req_dec_T a b then true else false.

#[export] Instance exact : Number R := {|
  literal := decimal;
  add := Rplus;
  sub := Rminus;
  mul := Rmult;
  div := Rdiv;
  Math_sqrt := sqrt;
  Math_abs := Rabs;
  Math_min2 := Rmin;
  Math_max2 := Rmax;
  ltb := Rltb;
  eqb := Reqb
|}.

(** The sum of a list of reals, and of f(0) .. f(n-1). *)
Definition Rsum (l : list R) : R := foldr Rplus 0%R l.
Definition Rsum_n (f : nat -> R) (n : nat) : R := Rsum (map f (seq 0 n)).

(** The sum of squared residuals of the line [y = a + b * x] against the
    points (k, values[k]). *)
Definition squared_error (values : list R) (a b : R) : R :=
  Rsum_n (fun k => (nth k values 0 - (a + b * INR k)) ^ 2)%R (length values).

(** The mean and the sum of squared deviations of a sequence. *)
Definition mean_of (V : list R) : R := (Rsum V / INR (length V))%R.
Definition sq_dev (V : list R) : R :=
  Rsum_n (fun k => (nth k V 0 - mean_of V) ^ 2)%R (length V).

(** The mean of the indices 0 .. n-1 and the two sums of the regression
    loop. *)
Definition xMean_of (n : nat) : R := ((INR n - 1) / 2)%R.
Definition cov_sum (V : list R) : R :=
  Rsum_n (fun k => (INR k - xMean_of (length V)) * (nth k V 0 - mean_of V))%R
         (length V).
Definition var_sum (n : nat) : R :=
  Rsum_n (fun k => (INR k - xMean_of n) ^ 2)%R n.

(** The arithmetic sequence a, a + d, ..., a + (n-1) d. *)
Definition arithmetic (a d : R) (n : nat) : list R :=
  map (fun k => a + d * INR k)%R (seq 0 n).

End Exact.


(** ** The correlation matrix *)

Module CorrelationMatrix.
Import Binary64.

(** A number in a condition or under [||]: false for NaN, 0 and -0. *)
Definition truthy (v : float) : bool := negb (is_nan v || is_zero v).

(** [entry?.value || otherwise], [entry] being the result of a lookup. *)
Definition value_or (entry : option (Corr.t float)) (otherwise : float) : float :=
  match entry with
  | Some e => if truthy (Corr.value e) then Corr.value e else otherwise
  | None => otherwise
  end.

(** [getCorrelation(p1, p2)], the number shown in the cell of row [p1] and
    column [p2]. *)
Definition getCorrelation (correlations : gmap string (Corr.t float))
    (p1 p2 : string) : float :=
  if String.eqb p1 p2 then 1%float
  else
    let key1 := corr_key p1 p2 in
    let key2 := corr_key p2 p1 in
    value_or (correlations !! key1) (value_or (correlations !! key2) 0%float).

(** The cells of the table body: one row per parameter, one cell per
    parameter in each row. *)
Definition cells (params : list Param.t) (correlations : gmap string (Corr.t float))
  : list (list float) :=
  map (fun p1 =>
         map (fun p2 => getCorrelation correlations (Param.name p1) (Param.name p2))
             params)
      params.

End CorrelationMatrix.

(** A name without the character that joins the two names of a key. *)
Fixpoint hyphen_free (s : string) : bool :=
  match s with
  | EmptyString => true
  | String c rest => negb (Ascii.eqb c "-") && hyphen_free rest
  end.
(** ** Inputs of the runs *)

Module Runs.
Import Binary64.

(** The end-to-end scenario. *)
Definition scenario_params : list Param.t :=
  [Param.mk "Temp" (Some "C"); Param.mk "Yield" (Some "%")].
Definition scenario_rows : list Row :=
  [row_of [("Temp", "20"); ("Yield", "50")];
   row_of [("Temp", "25"); ("Yield", "55")];
   row_of [("Temp", "30"); ("Yield", "60")]].

(** One column [x] with the given cells, one per row. *)
Definition column_x (cells : list string) : list Row :=
  map (fun cell => row_of [("x", cell)]) cells.

(** A has eight numeric cells, B only the first two. *)
Definition truncated_rows : list Row :=
  [row_of [("A", "2"); ("B", "2")]; row_of [("A", "-2"); ("B", "-2")];
   row_of [("A", "0")]; row_of [("A", "0")]; row_of [("A", "0")];
   row_of [("A", "0")]; row_of [("A", "0")]; row_of [("A", "0")]].

(** A has one numeric cell, B has five. *)
Definition one_and_five_rows : list Row :=
  [row_of [("A", "1"); ("B", "1")]; row_of [("A", "n/a"); ("B", "2")];
   row_of [("B", "3")]; row_of [("B", "4")]; row_of [("B", "5")]].

(** An arithmetic column of common difference 2. *)
Definition step2_cells : list string :=
  ["8.7"; "10.7"; "12.7"; "14.7"; "16.7"; "18.7"; "20.7"].

(** Four parameters whose names contain hyphens, two numeric rows. *)
Definition hyphen_params : list Param.t :=
  [param "a"; param "b-c"; param "a-b"; param "c"].
Definition hyphen_rows : list Row :=
  [row_of [("a", "1"); ("b-c", "2"); ("a-b", "3"); ("c", "5")];
   row_of [("a", "2"); ("b-c", "1"); ("a-b", "4"); ("c", "4")]].

End Runs.

(** ** Tactics *)

(** Case analysis on every integer comparison in sight, for the order of
    [SpecFloat] values. *)
Ltac compare_cases :=
  repeat match goal with
  | H : context [(?a ?= ?b)%Z] |- _ => destruct (Z.compare_spec a b); simpl in H
  | |- context [(?a ?= ?b)%Z] => destruct (Z.compare_spec a b); simpl
  | H : context [Pos.compare_cont Eq ?a ?b] |- _ =>
      change (Pos.compare_cont Eq a b) with (Pos.compare a b) in H;
      destruct (Pos.compare_spec a b); simpl in H
  | |- context [Pos.compare_cont Eq ?a ?b] =>
      change (Pos.compare_cont Eq a b) with (Pos.compare a b);
      destruct (Pos.compare_spec a b); simpl
  end.

(** * Verification *)

(** ** Facts about the kernel, for any [Number] *)

Section EngineFacts.
Context {F : Type} `{Number F}.
Local Open Scope num_scope.

Lemma sort_insert_perm (cmp : F -> F -> F) x l : sort_insert cmp x l ≡ₚ x :: l.
Proof.
  induction l as [|y l IH]; simpl; [done|].
  destruct (cmp x y >? zero); [|done].
  rewrite IH. apply Permutation_swap.
Qed.

Lemma Array_sort_perm (cmp : F -> F -> F) l : Array_sort cmp l ≡ₚ l.
Proof.
  induction l as [|x l IH]; simpl; [done|].
  unfold Array_sort in *. simpl. rewrite sort_insert_perm. by rewrite IH.
Qed.

Lemma Array_sort_length (cmp : F -> F -> F) l : length (Array_sort cmp l) = length l.
Proof. apply Permutation_length, Array_sort_perm. Qed.

Lemma at_index_sorted_elem (cmp : F -> F -> F) l i :
  (i < length l)%nat -> at_index (Array_sort cmp l) i ∈ l.
Proof.
  intros Hi. rewrite <- (Array_sort_perm cmp l) at 2.
  apply list_elem_of_In, nth_In. by rewrite Array_sort_length.
Qed.

Lemma statisticsOf_snoc (column : string -> list F) params param :
  statisticsOf column (params ++ [param])
  = StatsObject.assign (statisticsOf column params) (Param.name param)
                       (paramStats (column (Param.name param))).
Proof. unfold statisticsOf. by rewrite foldl_app. Qed.

(** Reading after an assignment: the assigned name reads as the assigned
    value (null reading as nothing), every other name as before. *)
Lemma read_assign (stats : StatsObject.t F) name v p :
  StatsObject.read (StatsObject.assign stats name v) p
  = if decide (name = p) then v else StatsObject.read stats p.
Proof.
  unfold StatsObject.read, StatsObject.assign.
  destruct (String.eqb name "__proto__") eqn:Hname.
  - apply String.eqb_eq in Hname. subst name.
    destruct (decide ("__proto__" = p)) as [<-|Hne].
    + destruct (StatsObject.own stats !! "__proto__") as [w|] eqn:Hown;
        [|destruct (StatsObject.prototype stats)]; cbn;
        rewrite ?lookup_insert_eq, ?Hown; try done; by destruct v.
    + destruct (StatsObject.own stats !! "__proto__") as [w|] eqn:Hown;
        [|destruct (StatsObject.prototype stats)]; cbn;
        rewrite ?lookup_insert_ne by done; try done.
      all: destruct (StatsObject.own stats !! p); [done|].
      all: destruct (String.eqb p "__proto__") eqn:Hp; [|done].
      all: apply String.eqb_eq in Hp; by subst p.
  - cbn. destruct (decide (name = p)) as [<-|Hne].
    + by rewrite lookup_insert_eq.
    + by rewrite lookup_insert_ne.
Qed.

(** The own properties other than [__proto__] after an assignment. *)
Lemma own_assign (stats : StatsObject.t F) name v p :
  p <> "__proto__" ->
  StatsObject.own (StatsObject.assign stats name v) !! p
  = if decide (name = p) then Some v else StatsObject.own stats !! p.
Proof.
  intros Hp. unfold StatsObject.assign.
  destruct (String.eqb name "__proto__") eqn:Hname.
  - apply String.eqb_eq in Hname. subst name. rewrite decide_False by done.
    destruct (StatsObject.own stats !! "__proto__");
      [|destruct (StatsObject.prototype stats)]; cbn;
      by rewrite ?lookup_insert_ne by done.
  - cbn. destruct (decide (name = p)) as [<-|Hne].
    + by rewrite lookup_insert_eq.
    + by rewrite lookup_insert_ne.
Qed.

Lemma statisticsOf_own (column : string -> list F) params p :
  p <> "__proto__" ->
  StatsObject.own (statisticsOf column params) !! p
  = if decide (p ∈ map Param.name params) then Some (paramStats (column p)) else None.
Proof.
  intros Hp.
  induction params as [|param params IH] using rev_ind.
  - unfold statisticsOf; simpl. by rewrite lookup_empty.
  - rewrite statisticsOf_snoc, map_app, own_assign by done. simpl.
    destruct (decide (Param.name param = p)) as [->|Hne].
    + rewrite decide_True; [done|].
      apply elem_of_app. right. by apply list_elem_of_singleton.
    + rewrite IH.
      destruct (decide (p ∈ map Param.name params)) as [Hin|Hnin].
      * rewrite decide_True; [done|]. apply elem_of_app. by left.
      * rewrite decide_False; [done|].
        rewrite elem_of_app, list_elem_of_singleton. intros [?|?]; done.
Qed.

(** Under [__proto__] the object never holds statistics as a property of
    its own: the first assignment under that name goes to the prototype, and
    only once the prototype is null (the column has no numeric cell) does a
    further assignment create a property, holding null. *)
Lemma statisticsOf_own_proto (column : string -> list F) params :
  (StatsObject.prototype (statisticsOf column params) = StatsObject.null_prototype ->
     paramStats (column "__proto__") = None)
  /\ (StatsObject.own (statisticsOf column params) !! "__proto__" <> None ->
      paramStats (column "__proto__") = None
      /\ StatsObject.own (statisticsOf column params) !! "__proto__" = Some None).
Proof.
  induction params as [|param params [IHp IHo]] using rev_ind.
  - unfold statisticsOf; simpl. split; [done|]. by rewrite lookup_empty.
  - rewrite statisticsOf_snoc. unfold StatsObject.assign.
    destruct (String.eqb (Param.name param) "__proto__") eqn:Hname.
    + apply String.eqb_eq in Hname. rewrite Hname.
      destruct (StatsObject.own (statisticsOf column params) !! "__proto__")
        as [w|] eqn:Hown.
      * destruct IHo as [Hc _]; [done|]. cbn. rewrite lookup_insert_eq, Hc.
        split; [done|done].
      * destruct (StatsObject.prototype (statisticsOf column params)) eqn:Hproto; cbn.
        -- rewrite Hown. split; [|done]. by destruct (paramStats (column "__proto__")).
        -- rewrite lookup_insert_eq, (IHp eq_refl). done.
        -- rewrite Hown. split; [|done]. by destruct (paramStats (column "__proto__")).
    + cbn. assert (Param.name param <> "__proto__") as Hne.
      { intros Heq. rewrite Heq in Hname. discriminate. }
      rewrite lookup_insert_ne by done. done.
Qed.

Lemma statisticsOf_lookup (column : string -> list F) params p :
  stats_at (statisticsOf column params) p
  = if decide (p ∈ map Param.name params) then paramStats (column p) else None.
Proof.
  unfold stats_at.
  induction params as [|param params IH] using rev_ind.
  - unfold statisticsOf, StatsObject.read; simpl. rewrite lookup_empty.
    by destruct (String.eqb p "__proto__").
  - rewrite statisticsOf_snoc, map_app, read_assign. simpl.
    destruct (decide (Param.name param = p)) as [->|Hne].
    + rewrite decide_True; [done|].
      apply elem_of_app. right. by apply list_elem_of_singleton.
    + rewrite IH.
      destruct (decide (p ∈ map Param.name params)) as [Hin|Hnin].
      * rewrite decide_True; [done|]. apply elem_of_app. by left.
      * rewrite decide_False; [done|].
        rewrite elem_of_app, list_elem_of_singleton. intros [?|?]; done.
Qed.

Lemma paramStats_values (values : list F) s :
  paramStats values = Some s -> Stats.values s = values /\ Stats.n s = length values /\ values <> [].
Proof.
  destruct values as [|v0 rest]; [done|]. unfold paramStats.
  intros [= <-]. simpl. done.
Qed.

Lemma paramStats_is_Some (values : list F) :
  values <> [] -> is_Some (paramStats values).
Proof. destruct values; [done|]. intros _. unfold paramStats. eauto. Qed.

Lemma paramStats_single (v : F) :
  exists st, paramStats [v] = Some st /\ Stats.n st = 1%nat /\ Stats.trend st = zero.
Proof. eexists. split; [reflexivity|]. done. Qed.

Lemma corr_step_ok statistics (corrs : gmap string (Corr.t F)) p :
  (forall k e, corrs !! k = Some e -> entry_ok statistics k e) ->
  forall k e, corr_step statistics corrs p !! k = Some e -> entry_ok statistics k e.
Proof.
  intros Hinv k e. destruct p as [p1 p2]. unfold corr_step.
  destruct (stats_at statistics p1) as [s1|] eqn:H1; [|apply Hinv].
  destruct (stats_at statistics p2) as [s2|] eqn:H2; [|apply Hinv].
  destruct (Nat.ltb_spec (Nat.min (length (Stats.values s1)) (length (Stats.values s2))) 2) as [Hn|Hn];
    [apply Hinv|].
  destruct (decide (corr_key p1 p2 = k)) as [<-|Hne].
  - rewrite lookup_insert_eq. intros [= <-]. exists s1, s2. simpl. done.
  - rewrite lookup_insert_ne by done. apply Hinv.
Qed.

Lemma correlations_ok params statistics k (e : Corr.t F) :
  correlations params statistics !! k = Some e -> entry_ok statistics k e.
Proof.
  unfold correlations. generalize (pairs (map Param.name params)). intros l.
  revert k e. induction l as [|p l IH] using rev_ind.
  - simpl. intros k e. by rewrite lookup_empty.
  - rewrite foldl_app. simpl. by apply corr_step_ok.
Qed.

Lemma pairs_spec {A} (l : list A) a b :
  (a, b) ∈ pairs l <-> exists i j, (i < j)%nat /\ l !! i = Some a /\ l !! j = Some b.
Proof.
  induction l as [|x l IH]; simpl.
  - split; [by intros ?%elem_of_nil|]. intros (i & j & _ & Hi & _). done.
  - rewrite elem_of_app, list_elem_of_fmap, IH. split.
    + intros [(y & [= -> ->] & Hy)|(i & j & Hij & Hi & Hj)].
      * apply list_elem_of_lookup in Hy as [j Hj]. exists 0%nat, (S j). split; [lia|done].
      * exists (S i), (S j). split; [lia|done].
    + intros (i & j & Hij & Hi & Hj). destruct j as [|j]; [lia|]. simpl in Hj.
      destruct i as [|i]; simpl in Hi.
      * injection Hi as ->. left. exists b. split; [done|]. by eapply list_elem_of_lookup_2.
      * right. exists i, j. split; [lia|done].
Qed.
End EngineFacts.

(** ** Facts in exact arithmetic *)

Module ExactFacts.
Import Exact.
Local Open Scope R_scope.

Lemma zero_exact : zero = 0.
Proof. reflexivity. Qed.
Lemma one_exact : one = 1.
Proof. reflexivity. Qed.
Lemma two_exact : two = 2.
Proof. reflexivity. Qed.

Lemma of_nat_exact n : of_nat n = INR n.
Proof.
  unfold of_nat; simpl; unfold decimal.
  rewrite Z.pow_0_r, Z.mul_1_r. symmetry. apply INR_IZR_INZ.
Qed.

Lemma Reqb_true a b : Reqb a b = true <-> a = b.
Proof. unfold Reqb. destruct (Req_dec_T a b); split; auto; discriminate. Qed.

Lemma foldl_Rplus_map {A} (f : A -> R) a l :
  foldl (fun sum v => sum + f v) a l = a + Rsum (map f l).
Proof.
  revert a. induction l as [|x l IH]; intros a; simpl; [lra|].
  rewrite IH. lra.
Qed.

Lemma sum_of_exact l : sum_of l = Rsum l.
Proof.
  unfold sum_of. change (foldl (fun sum v => sum + (fun x => x) v) zero l = Rsum l).
  rewrite foldl_Rplus_map, map_id, zero_exact. lra.
Qed.

Lemma Rsum_app l1 l2 : Rsum (l1 ++ l2) = Rsum l1 + Rsum l2.
Proof. induction l1 as [|x l1 IH]; simpl; [lra|]. rewrite IH. lra. Qed.

Lemma Rsum_n_S f n : Rsum_n f (S n) = Rsum_n f n + f n.
Proof. unfold Rsum_n. rewrite seq_S, map_app, Rsum_app. simpl. lra. Qed.

Lemma Rsum_n_ext f g n :
  (forall k, (k < n)%nat -> f k = g k) -> Rsum_n f n = Rsum_n g n.
Proof.
  induction n as [|n IH]; intros Hfg; [done|].
  rewrite !Rsum_n_S, IH, Hfg; auto.
Qed.

Lemma Rsum_n_plus f g n : Rsum_n (fun k => f k + g k) n = Rsum_n f n + Rsum_n g n.
Proof. induction n as [|n IH]; [unfold Rsum_n; simpl; lra|]. rewrite !Rsum_n_S, IH. lra. Qed.

Lemma Rsum_n_scal c f n : Rsum_n (fun k => c * f k) n = c * Rsum_n f n.
Proof. induction n as [|n IH]; [unfold Rsum_n; simpl; lra|]. rewrite !Rsum_n_S, IH. lra. Qed.

Lemma Rsum_n_const c n : Rsum_n (fun _ => c) n = INR n * c.
Proof.
  induction n as [|n IH]; [unfold Rsum_n; simpl; lra|].
  rewrite Rsum_n_S, IH, S_INR. lra.
Qed.

Lemma Rsum_n_nonneg f n : (forall k, (k < n)%nat -> 0 <= f k) -> 0 <= Rsum_n f n.
Proof.
  induction n as [|n IH]; intros Hf; [unfold Rsum_n; simpl; lra|].
  rewrite Rsum_n_S. pose proof (Hf n (Nat.lt_succ_diag_r n)).
  assert (0 <= Rsum_n f n) by (apply IH; auto). lra.
Qed.

(** A sum over the elements of a list is the sum over its indices. *)
Lemma Rsum_map_nth (f : R -> R) l :
  Rsum (map f l) = Rsum_n (fun k => f (nth k l 0)) (length l).
Proof.
  induction l as [|x l IH] using rev_ind; [done|].
  rewrite map_app, Rsum_app, length_app, Nat.add_1_r, Rsum_n_S, IH. simpl.
  rewrite app_nth2, Nat.sub_diag by lia. simpl.
  f_equal; [|lra]. apply Rsum_n_ext. intros k Hk. by rewrite app_nth1.
Qed.

Lemma Rsum_bounds l lo hi :
  (forall x, x ∈ l -> lo <= x <= hi) ->
  INR (length l) * lo <= Rsum l <= INR (length l) * hi.
Proof.
  induction l as [|x l IH]; intros Hb; [simpl; lra|].
  change (length (x :: l)) with (S (length l)). rewrite S_INR. simpl.
  assert (lo <= x <= hi) by (apply Hb; left).
  assert (INR (length l) * lo <= Rsum l <= INR (length l) * hi).
  { apply IH. intros y Hy. apply Hb. by right. }
  lra.
Qed.

Lemma foldl_Rmin_le l a :
  foldl Rmin a l <= a /\ forall x, x ∈ l -> foldl Rmin a l <= x.
Proof.
  revert a. induction l as [|y l IH]; intros a; simpl.
  - split; [lra|]. by intros x ?%elem_of_nil.
  - destruct (IH (Rmin a y)) as [H1 H2]. split.
    + pose proof (Rmin_l a y). lra.
    + intros x [->|Hx]%elem_of_cons; [|auto].
      pose proof (Rmin_r a y). lra.
Qed.

Lemma foldl_Rmax_ge l a :
  a <= foldl Rmax a l /\ forall x, x ∈ l -> x <= foldl Rmax a l.
Proof.
  revert a. induction l as [|y l IH]; intros a; simpl.
  - split; [lra|]. by intros x ?%elem_of_nil.
  - destruct (IH (Rmax a y)) as [H1 H2]. split.
    + pose proof (Rmax_l a y). lra.
    + intros x [->|Hx]%elem_of_cons; [|auto].
      pose proof (Rmax_r a y). lra.
Qed.

Lemma min_max_bounds v0 rest x :
  x ∈ v0 :: rest -> foldl Rmin v0 rest <= x <= foldl Rmax v0 rest.
Proof.
  destruct (foldl_Rmin_le rest v0) as [H1 H2].
  destruct (foldl_Rmax_ge rest v0) as [H3 H4].
  intros [->|Hx]%elem_of_cons; split; auto.
Qed.

Lemma half_lt n : (0 < n)%nat -> (n / 2 < n)%nat.
Proof. intros. apply Nat.div_lt; lia. Qed.

Lemma Rsum_n_0 f : Rsum_n f 0 = 0.
Proof. reflexivity. Qed.

Lemma Rsum_n_S_head f n : Rsum_n f (S n) = f 0%nat + Rsum_n (fun k => f (S k)) n.
Proof. unfold Rsum_n. simpl. by rewrite <- seq_shift, map_map. Qed.

Lemma sq_sum_exact V m :
  foldl (fun sum v => (sum + pow2 (v - m))%num) zero V
  = Rsum_n (fun k => (nth k V 0 - m) ^ 2) (length V).
Proof.
  etransitivity; [exact (foldl_Rplus_map (fun v => (v - m) * (v - m)) 0 V)|].
  rewrite Rplus_0_l, (Rsum_map_nth (fun v => (v - m) * (v - m))).
  apply Rsum_n_ext. intros k _. ring.
Qed.

(** The fields of the statistics of a non-empty sequence, in sum notation. *)
Lemma paramStats_exact V st :
  paramStats V = Some st ->
  Stats.values st = V /\ (0 < length V)%nat
  /\ Stats.mean st = mean_of V
  /\ Stats.stdDev st = sqrt (sq_dev V / INR (length V)).
Proof.
  destruct V as [|v0 rest]; [done|]. unfold paramStats. intros Hst.
  apply (inj Some) in Hst. subst st.
  cbn [Stats.values Stats.mean Stats.stdDev].
  set (V := v0 :: rest).
  split; [done|]. split; [simpl; lia|]. split.
  - by rewrite sum_of_exact, of_nat_exact.
  - cbn [Math_sqrt exact div]. rewrite sq_sum_exact, of_nat_exact, sum_of_exact.
    reflexivity.
Qed.


Lemma trend_sums_from (xm m : R) V (g : nat -> nat) a b :
  foldl (fun acc xy =>
           let '(x, y) := xy in
           (fst acc + (of_nat x - xm) * (y - m), snd acc + pow2 (of_nat x - xm))%num)
        (a, b) (imap (fun i y => (g i, y)) V)
  = (a + Rsum_n (fun k => (INR (g k) - xm) * (nth k V 0 - m)) (length V),
     b + Rsum_n (fun k => (INR (g k) - xm) ^ 2) (length V)).
Proof.
  revert g a b. induction V as [|y V IH]; intros g a b.
  - simpl. rewrite !Rsum_n_0. f_equal; lra.
  - change (length (y :: V)) with (S (length V)). rewrite !Rsum_n_S_head.
    cbn [imap foldl]. 
    change (imap ((fun i y0 => (g i, y0)) ∘ S) V) with (imap (fun i y0 => ((g ∘ S) i, y0)) V).
    rewrite IH. cbn [fst snd nth compose]. rewrite of_nat_exact.
    unfold pow2. cbn [add sub mul exact]. f_equal; ring.
Qed.

Lemma trend_sums_exact (xm m : R) V :
  trend_sums xm m V
  = (Rsum_n (fun k => (INR k - xm) * (nth k V 0 - m)) (length V),
     Rsum_n (fun k => (INR k - xm) ^ 2) (length V)).
Proof.
  unfold trend_sums.
  etransitivity; [exact (trend_sums_from xm m V (fun i => i) 0 0)|].
  f_equal; lra.
Qed.

Lemma var_sum_pos n : (2 <= n)%nat -> 0 < var_sum n.
Proof.
  intros Hn. destruct n as [|n]; [lia|]. unfold var_sum. rewrite Rsum_n_S_head.
  assert (0 <= Rsum_n (fun k => (INR (S k) - xMean_of (S n)) ^ 2) n)
    by (apply Rsum_n_nonneg; intros; apply pow2_ge_0).
  assert (0 < (INR 0 - xMean_of (S n)) ^ 2).
  { unfold xMean_of. rewrite S_INR. simpl (INR 0).
    assert (1 <= INR n) by (apply (le_INR 1); lia). nra. }
  lra.
Qed.

(** The trend of a sequence with at least two values is the quotient of the
    two sums. *)
Lemma trend_exact V st :
  paramStats V = Some st -> (2 <= length V)%nat ->
  Stats.trend st = cov_sum V / var_sum (length V).
Proof.
  destruct V as [|v0 rest]; [done|]. unfold paramStats. intros Hst Hlen.
  apply (inj Some) in Hst. subst st. cbn [Stats.trend].
  set (V := v0 :: rest) in *.
  destruct (Nat.ltb_spec 1 (length V)) as [_|]; [|lia].
  rewrite trend_sums_exact, !of_nat_exact, sum_of_exact, one_exact, two_exact.
  cbn [div sub exact eqb].
  fold (mean_of V). fold (xMean_of (length V)). fold (cov_sum V). fold (var_sum (length V)).
  pose proof (var_sum_pos (length V) Hlen).
  destruct (Reqb (var_sum (length V)) zero) eqn:Heq; [|done].
  apply Reqb_true in Heq. rewrite zero_exact in Heq. lra.
Qed.

Lemma trend_short v st : paramStats [v] = Some st -> Stats.trend st = 0.
Proof. unfold paramStats. intros Hst. apply (inj Some) in Hst. by subst st. Qed.


Lemma arithmetic_length a d n : length (arithmetic a d n) = n.
Proof. unfold arithmetic. by rewrite length_map, length_seq. Qed.

Lemma arithmetic_nth a d n k :
  (k < n)%nat -> nth k (arithmetic a d n) 0 = a + d * INR k.
Proof.
  intros Hk. unfold arithmetic.
  rewrite (nth_indep _ 0 (a + d * INR 0)) by (by rewrite length_map, length_seq).
  etransitivity; [exact (map_nth (fun k => a + d * INR k) (seq 0 n) 0%nat k)|].
  by rewrite seq_nth.
Qed.

Lemma Rsum_n_index n : Rsum_n INR n = INR n * (INR n - 1) / 2.
Proof.
  induction n as [|n IH]; [rewrite Rsum_n_0; simpl; lra|].
  rewrite Rsum_n_S, IH, S_INR. lra.
Qed.

Lemma arithmetic_mean a d n :
  (0 < n)%nat -> mean_of (arithmetic a d n) = a + d * xMean_of n.
Proof.
  intros Hn. unfold mean_of, arithmetic.
  change (Rsum (map (fun k => a + d * INR k) (seq 0 n))) with (Rsum_n (fun k => a + d * INR k) n).
  rewrite length_map, length_seq, Rsum_n_plus, Rsum_n_const, Rsum_n_scal, Rsum_n_index.
  unfold xMean_of. assert (0 < INR n) by (apply lt_0_INR; lia). field. lra.
Qed.

Lemma arithmetic_trend a d n st :
  (2 <= n)%nat -> paramStats (arithmetic a d n) = Some st -> Stats.trend st = d.
Proof.
  intros Hn Hst. rewrite (trend_exact _ _ Hst) by (rewrite arithmetic_length; lia).
  rewrite arithmetic_length. pose proof (var_sum_pos n Hn).
  assert (Hcov : cov_sum (arithmetic a d n) = d * var_sum n).
  { unfold cov_sum, var_sum. rewrite arithmetic_length, <- Rsum_n_scal.
    apply Rsum_n_ext. intros k Hk.
    rewrite arithmetic_nth, arithmetic_mean by lia. ring. }
  rewrite Hcov. field. lra.
Qed.

Lemma arithmetic_constant c n : arithmetic c 0 n = replicate n c.
Proof.
  unfold arithmetic. generalize 0%nat. induction n as [|n IH]; intros start; [done|].
  simpl. rewrite IH. f_equal. lra.
Qed.

(** The least-squares identity: the squared error of any line, as a
    function of the centred sums. *)
Lemma squared_error_expand (u w : nat -> R) b c n :
  Rsum_n (fun k => (w k - b * u k + c) ^ 2) n
  = Rsum_n (fun k => w k ^ 2) n - 2 * b * Rsum_n (fun k => u k * w k) n
    + b ^ 2 * Rsum_n (fun k => u k ^ 2) n
    + 2 * c * (Rsum_n w n - b * Rsum_n u n) + INR n * c ^ 2.
Proof.
  induction n as [|n IH]; [rewrite !Rsum_n_0; simpl; lra|].
  rewrite !Rsum_n_S, IH, S_INR. ring.
Qed.

Lemma centred_values_sum V :
  (0 < length V)%nat -> Rsum_n (fun k => nth k V 0 - mean_of V) (length V) = 0.
Proof.
  intros Hn.
  rewrite (Rsum_n_ext _ (fun k => nth k V 0 + -1 * mean_of V)) by (intros; ring).
  rewrite Rsum_n_plus, Rsum_n_scal, Rsum_n_const, <- (Rsum_map_nth (fun v => v)), map_id.
  unfold mean_of. assert (0 < INR (length V)) by (apply lt_0_INR; lia). field. lra.
Qed.

Lemma centred_index_sum n :
  (0 < n)%nat -> Rsum_n (fun k => INR k - xMean_of n) n = 0.
Proof.
  intros Hn.
  rewrite (Rsum_n_ext _ (fun k => INR k + -1 * xMean_of n)) by (intros; ring).
  rewrite Rsum_n_plus, Rsum_n_scal, Rsum_n_const, Rsum_n_index. unfold xMean_of. lra.
Qed.

(** The regression line through (xMean, mean) with slope [trend] minimises
    the squared error. *)
Lemma trend_least_squares V st a b :
  paramStats V = Some st -> (2 <= length V)%nat ->
  squared_error V (Stats.mean st - Stats.trend st * xMean_of (length V)) (Stats.trend st)
  <= squared_error V a b.
Proof.
  intros Hst Hlen. rewrite (trend_exact _ _ Hst Hlen).
  destruct (paramStats_exact _ _ Hst) as (_ & Hn & -> & _).
  set (n := length V) in *. set (m := mean_of V). set (xm := xMean_of n).
  set (u := fun k => INR k - xm). set (w := fun k => nth k V 0 - m).
  assert (Hline : forall a' b', squared_error V a' b'
      = Rsum_n (fun k => (w k - b' * u k + (m - a' - b' * xm)) ^ 2) n).
  { intros a' b'. unfold squared_error. apply Rsum_n_ext. intros k _. unfold u, w. ring. }
  rewrite !Hline, !squared_error_expand.
  assert (Hw : Rsum_n w n = 0) by (apply centred_values_sum; lia).
  assert (Hu : Rsum_n u n = 0) by (apply centred_index_sum; lia).
  rewrite Hw, Hu.
  assert (Hvar : Rsum_n (fun k => u k ^ 2) n = var_sum n) by reflexivity.
  assert (Hcov : Rsum_n (fun k => u k * w k) n = cov_sum V) by reflexivity.
  rewrite Hvar, Hcov.
  pose proof (var_sum_pos n Hlen) as Hpos.
  set (S := var_sum n) in *. set (C := cov_sum V).
  replace (m - (m - C / S * xm) - C / S * xm) with 0 by ring.
  assert (0 <= INR n) by apply pos_INR.
  assert (Hdiff : Rsum_n (fun k => w k ^ 2) n - 2 * b * C + b ^ 2 * S
                  - (Rsum_n (fun k => w k ^ 2) n - 2 * (C / S) * C + (C / S) ^ 2 * S)
                  = S * (b - C / S) ^ 2) by (field; lra).
  assert (0 <= S * (b - C / S) ^ 2) by (apply Rmult_le_pos; [lra|apply pow2_ge_0]).
  assert (0 <= INR n * (m - a - b * xm) ^ 2) by (apply Rmult_le_pos; [lra|apply pow2_ge_0]).
  lra.
Qed.
End ExactFacts.

(** ** Facts about binary64 runs *)

Module Binary64Facts.
Import Binary64.
Local Open Scope num_scope.

Lemma SFcompare_antisym f1 f2 :
  SFcompare f2 f1 = option_map CompOpp (SFcompare f1 f2).
Proof.
  destruct f1 as [s1|s1| |s1 m1 e1], f2 as [s2|s2| |s2 m2 e2]; simpl;
    try reflexivity; try (destruct s1; reflexivity); try (destruct s2; reflexivity);
    try (destruct s1, s2; reflexivity).
  pose proof (Pos.compare_cont_antisym m1 m2 Eq) as Hm. simpl in Hm.
  destruct s1, s2; simpl; try reflexivity;
    rewrite (Z.compare_antisym e1 e2); destruct (e1 ?= e2)%Z; simpl; try reflexivity;
    rewrite <- Hm; by destruct (Pos.compare_cont Eq m1 m2).
Qed.

(** [a < b] excludes [b < a]. *)
Lemma ltb_asym (a b : float) : PrimFloat.ltb a b = true -> PrimFloat.ltb b a = false.
Proof.
  rewrite !ltb_spec. unfold SFltb. rewrite (SFcompare_antisym (Prim2SF a) (Prim2SF b)).
  by destruct (SFcompare (Prim2SF a) (Prim2SF b)) as [[]|].
Qed.

Lemma trendLines_lookup data params statistics i param :
  params !! i = Some param ->
  trendLines data params statistics "line" !! i
  = Some (trendLine data params statistics i param).
Proof.
  intros Hi. unfold trendLines. simpl. by rewrite list_lookup_imap, Hi.
Qed.

Lemma trendLines_other data params statistics type :
  type <> "line" -> trendLines data params statistics type = [].
Proof.
  intros Hne. unfold trendLines. destruct (String.eqb_spec type "line"); done.
Qed.


Lemma SVGChart_data_group data params statistics type :
  data <> [] -> params <> [] ->
  exists grid yAxis xAxis,
    SVGChart data params statistics type
    = svg [grid; yAxis; xAxis;
           g (without_null (imap (series data params type) params)
              ++ without_null (trendLines data params statistics type))].
Proof.
  intros Hd Hp. unfold SVGChart.
  destruct data; [done|]. destruct params; [done|]. simpl. eauto.
Qed.

Lemma SFleb_trans a b c : SFleb a b = true -> SFleb b c = true -> SFleb a c = true.
Proof.
  unfold SFleb.
  destruct a as [sa|sa| |sa ma ea], b as [sb|sb| |sb mb eb], c as [sc|sc| |sc mc ec];
    simpl; try discriminate; try reflexivity;
    try (destruct sa; simpl; try discriminate; try reflexivity);
    try (destruct sb; simpl; try discriminate; try reflexivity);
    try (destruct sc; simpl; try discriminate; try reflexivity);
    intros H1 H2; compare_cases; try discriminate; try reflexivity; try lia.
Qed.

Lemma SFcompare_refl f : f <> S754_nan -> SFcompare f f = Some Eq.
Proof.
  destruct f as [s|s| |s m e]; simpl; try done; try (by destruct s).
  intros _. rewrite Z.compare_refl, Pos.compare_cont_refl. by destruct s.
Qed.

Lemma SFcompare_is_Some f1 f2 :
  f1 <> S754_nan -> f2 <> S754_nan -> is_Some (SFcompare f1 f2).
Proof. destruct f1, f2; simpl; try done; eauto. Qed.

Lemma is_nan_false x : is_nan x = false <-> Prim2SF x <> S754_nan.
Proof.
  unfold is_nan. rewrite FloatAxioms.eqb_spec. unfold SFeqb. split.
  - intros Hx Hnan. rewrite Hnan in Hx. done.
  - intros Hx. by rewrite SFcompare_refl.
Qed.

Lemma leb_refl x : is_nan x = false -> PrimFloat.leb x x = true.
Proof.
  intros Hx%is_nan_false. rewrite leb_spec. unfold SFleb. by rewrite SFcompare_refl.
Qed.

Lemma leb_trans x y z :
  PrimFloat.leb x y = true -> PrimFloat.leb y z = true -> PrimFloat.leb x z = true.
Proof. rewrite !leb_spec. apply SFleb_trans. Qed.

Lemma ltb_leb x y : PrimFloat.ltb x y = true -> PrimFloat.leb x y = true.
Proof.
  rewrite ltb_spec, leb_spec. unfold SFltb, SFleb.
  by destruct (SFcompare (Prim2SF x) (Prim2SF y)) as [[]|].
Qed.

(** Numbers are totally ordered: what is not below is above or equal. *)
Lemma not_ltb_leb x y :
  is_nan x = false -> is_nan y = false ->
  PrimFloat.ltb x y = false -> PrimFloat.leb y x = true.
Proof.
  intros Hx%is_nan_false Hy%is_nan_false. rewrite ltb_spec, leb_spec.
  unfold SFltb, SFleb. rewrite (SFcompare_antisym (Prim2SF x) (Prim2SF y)).
  destruct (SFcompare_is_Some _ _ Hx Hy) as [c ->]. by destruct c.
Qed.

Lemma Math_min_2_spec a b :
  is_nan a = false -> is_nan b = false ->
  is_nan (Math_min_2 a b) = false
  /\ PrimFloat.leb (Math_min_2 a b) a = true
  /\ PrimFloat.leb (Math_min_2 a b) b = true.
Proof.
  intros Ha Hb. unfold Math_min_2. rewrite Ha, Hb. simpl.
  destruct (PrimFloat.ltb a b) eqn:Hab; [auto using leb_refl, ltb_leb|].
  destruct (PrimFloat.ltb b a) eqn:Hba; [auto using leb_refl, ltb_leb|].
  destruct (get_sign a); auto using leb_refl, not_ltb_leb.
Qed.

Lemma Math_max_2_spec a b :
  is_nan a = false -> is_nan b = false ->
  is_nan (Math_max_2 a b) = false
  /\ PrimFloat.leb a (Math_max_2 a b) = true
  /\ PrimFloat.leb b (Math_max_2 a b) = true.
Proof.
  intros Ha Hb. unfold Math_max_2. rewrite Ha, Hb. simpl.
  destruct (PrimFloat.ltb a b) eqn:Hab; [auto using leb_refl, ltb_leb|].
  destruct (PrimFloat.ltb b a) eqn:Hba; [auto using leb_refl, ltb_leb|].
  destruct (get_sign a); auto using leb_refl, not_ltb_leb.
Qed.

Lemma foldl_min_spec rest v0 :
  is_nan v0 = false -> (forall v, v ∈ rest -> is_nan v = false) ->
  is_nan (foldl Math_min_2 v0 rest) = false
  /\ forall v, v ∈ v0 :: rest -> PrimFloat.leb (foldl Math_min_2 v0 rest) v = true.
Proof.
  revert v0. induction rest as [|y rest IH]; intros v0 H0 Hrest; simpl.
  - split; [done|]. intros v ->%list_elem_of_singleton. by apply leb_refl.
  - destruct (Math_min_2_spec v0 y) as (Hn & Hl0 & Hly); [done|apply Hrest; left|].
    destruct (IH (Math_min_2 v0 y)) as [Hnan Hle]; [done|intros; apply Hrest; by right|].
    split; [done|]. intros v Hv.
    assert (Hm : PrimFloat.leb (foldl Math_min_2 (Math_min_2 v0 y) rest) (Math_min_2 v0 y) = true)
      by (apply Hle; left).
    apply elem_of_cons in Hv as [->|[->|Hv]%elem_of_cons].
    + by eapply leb_trans.
    + by eapply leb_trans.
    + apply Hle. by right.
Qed.

Lemma foldl_max_spec rest v0 :
  is_nan v0 = false -> (forall v, v ∈ rest -> is_nan v = false) ->
  is_nan (foldl Math_max_2 v0 rest) = false
  /\ forall v, v ∈ v0 :: rest -> PrimFloat.leb v (foldl Math_max_2 v0 rest) = true.
Proof.
  revert v0. induction rest as [|y rest IH]; intros v0 H0 Hrest; simpl.
  - split; [done|]. intros v ->%list_elem_of_singleton. by apply leb_refl.
  - destruct (Math_max_2_spec v0 y) as (Hn & Hl0 & Hly); [done|apply Hrest; left|].
    destruct (IH (Math_max_2 v0 y)) as [Hnan Hle]; [done|intros; apply Hrest; by right|].
    split; [done|]. intros v Hv.
    assert (Hm : PrimFloat.leb (Math_max_2 v0 y) (foldl Math_max_2 (Math_max_2 v0 y) rest) = true)
      by (apply Hle; left).
    apply elem_of_cons in Hv as [->|[->|Hv]%elem_of_cons].
    + by eapply leb_trans.
    + by eapply leb_trans.
    + apply Hle. by right.
Qed.

Lemma column_not_nan data name v : v ∈ column data name -> is_nan v = false.
Proof.
  unfold column. intros [Hv _]%list_elem_of_filter. unfold isNaN in Hv.
  by destruct (is_nan v).
Qed.

(** In a statistics object of the program, every value lies between min and
    max, and with an odd number of values the median is one of them. *)
Lemma statistics_order params data name st :
  stats_at (statistics params data) name = Some st ->
  (forall v, v ∈ Stats.values st ->
     PrimFloat.leb (Stats.min st) v = true /\ PrimFloat.leb v (Stats.max st) = true)
  /\ PrimFloat.leb (Stats.min st) (Stats.max st) = true
  /\ (Stats.n st mod 2 = 1%nat -> Stats.median st ∈ Stats.values st).
Proof.
  unfold statistics. rewrite statisticsOf_lookup. case_decide; [|done].
  intros Hst.
  pose proof (column_not_nan data name) as Hnan.
  destruct (column data name) as [|v0 rest] eqn:Hcol; [done|].
  unfold paramStats in Hst. apply (inj Some) in Hst. subst st.
  cbn [Stats.values Stats.min Stats.max Stats.median Stats.n].
  destruct (foldl_min_spec rest v0) as [_ Hmin]; [apply Hnan; left|intros; apply Hnan; by right|].
  destruct (foldl_max_spec rest v0) as [_ Hmax]; [apply Hnan; left|intros; apply Hnan; by right|].
  split; [|split].
  - intros v Hv. split; [by apply Hmin|by apply Hmax].
  - eapply leb_trans; [apply Hmin|apply Hmax]; left.
  - intros Hodd. set (V := v0 :: rest) in *.
    change (Math_min2 : float -> float -> float) with Math_min_2 in *.
    destruct (Nat.eqb_spec (length V mod 2) 0) as [Heven|_]; [lia|].
    apply at_index_sorted_elem. apply Nat.div_lt; [unfold V; simpl|]; lia.
Qed.

Lemma Prim2SF_nan x : is_nan x = true -> x = nan.
Proof.
  intros Hx. apply Prim2SF_inj. unfold is_nan in Hx.
  rewrite FloatAxioms.eqb_spec in Hx. unfold SFeqb in Hx.
  destruct (Prim2SF x) as [s|s| |s m e] eqn:E; try reflexivity; exfalso.
  - by destruct s.
  - by destruct s.
  - simpl in Hx. rewrite Z.compare_refl, Pos.compare_cont_refl in Hx. by destruct s.
Qed.

(** [Math.min(v0, ...rest)] folds from +Infinity; it is the fold from [v0]
    that the statistics use. *)
Lemma Math_min_cons v0 rest : Math_min (v0 :: rest) = foldl Math_min_2 v0 rest.
Proof.
  unfold Math_min. simpl. f_equal. unfold Math_min_2.
  change (is_nan infinity) with false. simpl.
  destruct (is_nan v0) eqn:Hnan; [symmetry; by apply Prim2SF_nan|].
  assert (Hinf : PrimFloat.ltb infinity v0 = false).
  { rewrite ltb_spec. change (Prim2SF infinity) with (S754_infinity false).
    unfold SFltb. by destruct (Prim2SF v0) as [[]|[]| |[]]. }
  rewrite Hinf. by destruct (PrimFloat.ltb v0 infinity).
Qed.

Lemma Math_max_cons v0 rest : Math_max (v0 :: rest) = foldl Math_max_2 v0 rest.
Proof.
  unfold Math_max. simpl. f_equal. unfold Math_max_2.
  change (is_nan neg_infinity) with false. simpl.
  destruct (is_nan v0) eqn:Hnan; [symmetry; by apply Prim2SF_nan|].
  assert (Hinf : PrimFloat.ltb v0 neg_infinity = false).
  { rewrite ltb_spec. change (Prim2SF neg_infinity) with (S754_infinity true).
    unfold SFltb. by destruct (Prim2SF v0) as [[]|[]| |[]]. }
  rewrite Hinf. by destruct (PrimFloat.ltb neg_infinity v0).
Qed.

Example parseFloat_examples :
  map parseFloat_string
      ["20"; "  5.5e1 mg"; "-0.25"; ".5"; "5."; "1e"; "0x10"; "+3"; "1E-2"; "1e400"]
  = [20; 55; -0.25; 0.5; 5; 1; 0; 3; literal 1 (-2); infinity]%float
  /\ map parseFloat_string
         ["0.1"; "8.7"; "9007199254740993"; "2.4703282292062328e-324";
          "1.7976931348623157e308"]
     = [0x1.999999999999ap-4; 0x1.1666666666666p+3; 0x1p+53; 0x1p-1074;
        0x1.fffffffffffffp+1023]%float
  /\ map (fun s => isNaN (parseFloat_string s)) [""; "abc"; "."; "- 3"; "e5"; "Infinit"]
     = [true; true; true; true; true; true]
  /\ map parseFloat_string ["Infinity"; "-Infinity"; "+Infinityx"]
     = [infinity; neg_infinity; infinity]
  /\ map parseFloat [Some (JsNumber 2.5); Some (JsNumber neg_zero); Some JsNull; None]
     = [2.5%float; 0%float; nan; nan].
Proof. vm_compute. repeat split. Qed.

Lemma valid_points_count data params p :
  length (filter (fun q => Point.valid q = true) (validPoints data params p))
  = length (column data (Param.name p)).
Proof.
  unfold validPoints, column.
  generalize (map (fun row : Row => parseFloat (row !! Param.name p)) data).
  intros values. generalize (scaleX data). intros sx.
  revert sx. induction values as [|v values IH]; intros sx; [done|].
  cbn [imap]. rewrite !filter_cons. cbn [Point.valid].
  destruct (decide (negb (isNaN v) = true)); simpl;
    [f_equal|]; exact (IH (sx ∘ S)).
Qed.

(** In bar mode a parameter gets one bar per numeric cell, each of width
    (chartWidth / rows / series) * 0.8. *)
Lemma bars_count_width data params i p :
  exists bars,
    series data params "bar" i p = Some (g bars)
    /\ length bars = length (column data (Param.name p))
    /\ Forall (fun bar => exists x y h fill opacity,
                 bar = rect x y ((chartWidth / of_nat (length data)
                                  / of_nat (length params)) * literal 8 (-1))
                            h fill opacity) bars.
Proof.
  eexists. split; [reflexivity|]. split.
  - by rewrite length_imap, valid_points_count.
  - apply Forall_lookup. intros k bar Hk.
    apply list_lookup_imap_Some in Hk as (q & _ & ->). eauto 10.
Qed.
End Binary64Facts.

(** *** Keys of names without a hyphen *)

Lemma corr_key_inj (p1 p2 q1 q2 : string) :
  hyphen_free p1 = true -> hyphen_free q1 = true ->
  corr_key p1 p2 = corr_key q1 q2 -> p1 = q1 /\ p2 = q2.
Proof.
  unfold corr_key. revert q1.
  induction p1 as [|c p1 IH]; intros [|d q1]; cbn; intros Hp Hq Heq.
  1-3: by simplify_eq;
         try (apply andb_prop in Hq as [? _]); try (apply andb_prop in Hp as [? _]).
  injection Heq as Hc Heq. subst d.
  apply andb_prop in Hp as [_ Hp]. apply andb_prop in Hq as [_ Hq].
  destruct (IH q1 Hp Hq Heq) as [-> ->]. done.
Qed.

Section Complete.
Context {F : Type} `{Number F}.

(** The loop body leaves the other keys alone. *)
Lemma corr_step_other (statistics : StatsObject.t F) corrs p1 p2 key :
  key <> corr_key p1 p2 ->
  corr_step statistics corrs (p1, p2) !! key = corrs !! key.
Proof.
  intros Hne. unfold corr_step.
  destruct (stats_at statistics p1); [|done].
  destruct (stats_at statistics p2); [|done].
  destruct (_ <? 2)%nat; [done|]. by rewrite lookup_insert_ne.
Qed.

(** The loop body on a pair with statistics and two values each. *)
Lemma corr_step_writes (statistics : StatsObject.t F) corrs p1 p2 s1 s2 :
  stats_at statistics p1 = Some s1 ->
  stats_at statistics p2 = Some s2 ->
  (2 <= Nat.min (length (Stats.values s1)) (length (Stats.values s2)))%nat ->
  corr_step statistics corrs (p1, p2) !! corr_key p1 p2
  = Some (Corr.mk p1 p2 (corr_value s1 s2) (strength_of (corr_value s1 s2))).
Proof.
  intros H1 H2 Hn. unfold corr_step. rewrite H1, H2.
  destruct (_ <? 2)%nat eqn:Hlt; [apply Nat.ltb_lt in Hlt; lia|].
  by rewrite lookup_insert_eq.
Qed.

Lemma correlations_complete (statistics : StatsObject.t F) ps p1 p2 s1 s2 :
  Forall (fun q => hyphen_free (fst q) = true) ps ->
  (p1, p2) ∈ ps ->
  stats_at statistics p1 = Some s1 ->
  stats_at statistics p2 = Some s2 ->
  (2 <= Nat.min (length (Stats.values s1)) (length (Stats.values s2)))%nat ->
  foldl (corr_step statistics) ∅ ps !! corr_key p1 p2
  = Some (Corr.mk p1 p2 (corr_value s1 s2) (strength_of (corr_value s1 s2))).
Proof.
  intros Hfree Hin H1 H2 Hn.
  induction ps as [|[q1 q2] ps IH] using rev_ind; [by apply elem_of_nil in Hin|].
  rewrite foldl_app. cbn [foldl].
  rewrite Forall_app, Forall_singleton in Hfree. destruct Hfree as [Hps Hq]. cbn in Hq.
  destruct (decide ((q1, q2) = (p1, p2))) as [[= -> ->]|Hne].
  - by apply corr_step_writes.
  - apply elem_of_app in Hin as [Hin|Hin%list_elem_of_singleton]; [|done].
    rewrite corr_step_other; [by apply IH|].
    intros Heq. apply Hne. symmetry.
    rewrite Forall_forall in Hps. specialize (Hps _ Hin). cbn in Hps.
    destruct (corr_key_inj p1 p2 q1 q2 Hps Hq Heq) as [-> ->]. done.
Qed.

End Complete.

(** * The properties of the specification *)

Import Binary64 Runs Exact.

(** ** C1: the interval of a correlation value *)

(** C1 fails on the program.  With A holding eight numeric cells
    (2, -2, 0, ..., 0) and B two (2, -2, the other cells not numeric), both
    parameters have statistics, of eight and of two values, and the entry
    "A-B" sums the products of the first two values of each, centred on the
    means of the whole columns, but divides by 2 and the standard deviations
    of the whole columns (1 for A, 2 for B): its value is 2, above 1, where
    the first two values of A and of B are the same. *)
Theorem C1_truncated_pair_above_one :
  exists a b e,
    stats_at (statistics [param "A"; param "B"] truncated_rows) "A" = Some a
    /\ stats_at (statistics [param "A"; param "B"] truncated_rows) "B" = Some b
    /\ Stats.values a = [2; -2; 0; 0; 0; 0; 0; 0]%float
    /\ Stats.values b = [2; -2]%float
    /\ Stats.stdDev a = 1%float /\ Stats.stdDev b = 2%float
    /\ correlationsOf [param "A"; param "B"] truncated_rows !! "A-B" = Some e
    /\ Corr.value e = 2%float
    /\ PrimFloat.ltb 1 (Corr.value e) = true
    /\ Corr.strength e = strong.
Proof.
  do 3 eexists.
  split; [vm_compute; reflexivity|]. split; [vm_compute; reflexivity|].
  do 4 (split; [vm_compute; reflexivity|]).
  split; [vm_compute; reflexivity|]. vm_compute. repeat split.
Qed.

(** ** C2: the end-to-end scenario *)

(** C2.  On the Temp/Yield scenario the statistics of Temp are n = 3,
    mean = 25, median = 25, min = 20, max = 30, range = 10, stdDev = 4.08
    and cv = 16.3 to the digits shown, trend = 5; those of Yield are the
    analogous ones (mean 55, from 50 to 60, stdDev 4.08) with trend = 5; and
    the correlations hold exactly one entry, under the key "Temp-Yield", for
    the pair (Temp, Yield), with value 1 and strength strong. *)
Theorem C2_scenario :
  (exists t, StatsObject.own (statistics scenario_params scenario_rows) !! "Temp" = Some (Some t)
     /\ Stats.n t = 3%nat /\ Stats.mean t = 25%float /\ Stats.median t = 25%float
     /\ Stats.min t = 20%float /\ Stats.max t = 30%float /\ Stats.range t = 10%float
     /\ near (Stats.stdDev t) (literal 408 (-2)) (literal 5 (-3)) = true
     /\ near (Stats.cv t) (literal 163 (-1)) (literal 5 (-2)) = true
     /\ Stats.trend t = 5%float)
  /\ (exists y, StatsObject.own (statistics scenario_params scenario_rows) !! "Yield" = Some (Some y)
     /\ Stats.n y = 3%nat /\ Stats.mean y = 55%float /\ Stats.median y = 55%float
     /\ Stats.min y = 50%float /\ Stats.max y = 60%float /\ Stats.range y = 10%float
     /\ near (Stats.stdDev y) (literal 408 (-2)) (literal 5 (-3)) = true
     /\ Stats.trend y = 5%float)
  /\ (exists c, correlationsOf scenario_params scenario_rows !! "Temp-Yield" = Some c
     /\ Corr.param1 c = "Temp" /\ Corr.param2 c = "Yield"
     /\ Corr.value c = 1%float /\ Corr.strength c = strong)
  /\ size (correlationsOf scenario_params scenario_rows) = 1%nat.
Proof.
  repeat apply conj.
  1-3: eexists; split; [vm_compute; reflexivity|]; vm_compute; repeat split.
  vm_compute; reflexivity.
Qed.

(** ** C3: which cells enter the statistics *)

(** C3 fails as stated: a cell "Infinity" parses to a number that is not
    finite, and the filter [!isNaN(v)] keeps it.  The statistics of the
    column then have n = 1 and values = [Infinity], where the finite cells
    are none. *)
Lemma C3_infinity_is_counted :
  exists st,
    StatsObject.own (statistics [param "x"] (column_x ["Infinity"])) !! "x" = Some (Some st)
    /\ Stats.n st = 1%nat
    /\ Stats.values st = [infinity]
    /\ finite_cells (column_x ["Infinity"]) "x" = [].
Proof.
  eexists. split; [vm_compute; reflexivity|]. vm_compute. repeat split.
Qed.

(** C3 (amended).  For every parameter of the list and every row table, the
    statistics the program reads under the parameter's name are built from
    exactly the cells whose parse is not NaN, in row order (so a non-numeric
    cell is left out of n and not counted as zero, while Infinity and
    -Infinity are kept): when there is such a cell the statistics hold them
    as [values] and their number as [n], and when there is none the read
    gives nothing (null).  For the rows "5", "abc", "7" the statistics of x
    have n = 2 and mean = 6, and a column without any numeric cell has the
    entry null. *)
Theorem C3_values_are_the_non_NaN_cells :
  (forall (params : list Param.t) (data : list Row) (p : Param.t),
     p ∈ params ->
     let numeric :=
       filter (fun v => negb (isNaN v) = true)
              (map (fun row : Row => parseFloat (row !! Param.name p)) data) in
     match stats_at (statistics params data) (Param.name p) with
     | Some st =>
         numeric <> [] /\ Stats.values st = numeric /\ Stats.n st = length numeric
     | None => numeric = []
     end)
  /\ (exists st,
        StatsObject.own (statistics [param "x"] (column_x ["5"; "abc"; "7"])) !! "x"
        = Some (Some st)
        /\ Stats.n st = 2%nat /\ Stats.mean st = 6%float
        /\ Stats.values st = [5%float; 7%float])
  /\ StatsObject.own (statistics [param "x"] (column_x ["abc"; ""])) !! "x" = Some None.
Proof.
  split; [|split].
  - intros params data p Hp numeric. unfold statistics.
    rewrite statisticsOf_lookup, decide_True by (by apply list_elem_of_fmap_2).
    fold numeric. change (column data (Param.name p)) with numeric.
    destruct (paramStats numeric) as [st|] eqn:Hst.
    + apply paramStats_values in Hst as (? & ? & ?). done.
    + destruct numeric; [done|discriminate].
  - eexists. split; [vm_compute; reflexivity|]. vm_compute. repeat split.
  - vm_compute. reflexivity.
Qed.

Lemma C3_values_are_the_non_NaN_cells_witness :
  let data := column_x ["5"; "abc"; "7"] in
  let numeric :=
    filter (fun v => negb (isNaN v) = true)
           (map (fun row : Row => parseFloat (row !! "x")) data) in
  match stats_at (statistics [param "x"] data) "x" with
  | Some st =>
      numeric <> [] /\ Stats.values st = numeric /\ Stats.n st = length numeric
  | None => numeric = []
  end.
Proof.
  apply (proj1 C3_values_are_the_non_NaN_cells [param "x"]
               (column_x ["5"; "abc"; "7"]) (param "x")).
  apply list_elem_of_here.
Defined.

(** ** C4: the trend overlay of the line chart *)

Local Open Scope num_scope.

(** C4 fails as stated on two runs.  For the rows "1", "abc", "3" the
    statistics of x have n = 2, mean = 2 and trend = 2, and the overlay is
    drawn through mean -/+ trend * (3 - 1) / 2, with the number of rows and
    not the number of valid values: it runs from height 0 to height 4
    (pixels 360 and -120), not from 1 to 3 (pixels 240 and 0).
    For the rows "0", "0.1" the trend is 0.1, which does not exceed 0.1, and
    the overlay is drawn. *)
Lemma C4_overlay_differs :
  (let data := column_x ["1"; "abc"; "3"] in
   let params := [param "x"] in
   exists st, StatsObject.own (statistics params data) !! "x" = Some (Some st)
     /\ Stats.n st = 2%nat /\ Stats.mean st = 2%float /\ Stats.trend st = 2%float
     /\ trendLines data params (statistics params data) "line"
        = [Some (line 0 360 610 (-120) "#6366f1" (Some "8") (Some 0.5%float))]
     /\ scaleY data params
          (Stats.mean st - Stats.trend st * (of_nat (Stats.n st) - #1) / #2) = 240%float
     /\ scaleY data params
          (Stats.mean st + Stats.trend st * (of_nat (Stats.n st) - #1) / #2) = 0%float)
  /\ (let data := column_x ["0"; "0.1"] in
      let params := [param "x"] in
      exists st, StatsObject.own (statistics params data) !! "x" = Some (Some st)
        /\ Stats.trend st = literal 1 (-1)
        /\ (Math_abs (Stats.trend st) >? literal 1 (-1)) = false
        /\ trendLines data params (statistics params data) "line"
           = [Some (line 0 240 610 0 "#6366f1" (Some "8") (Some 0.5%float))]).
Proof.
  split; cbv zeta; eexists; (split; [vm_compute; reflexivity|]); vm_compute; repeat split.
Qed.

(** C4 (amended).  The last group of the chart holds the series followed by
    the overlays.  In line mode there is, for the parameter at each position
    i of the charted list, the overlay of that parameter and nothing else;
    in the other modes there is no overlay.  A parameter without statistics
    has no overlay; one whose trend magnitude is below 0.1 has none; one
    whose trend magnitude exceeds 0.1 has a dashed line, in the colour of
    position i at opacity 0.5, from the left edge of the plot at height
    mean - trend * (rows - 1) / 2 to its right edge at height
    mean + trend * (rows - 1) / 2, where rows is the number of data rows. *)
Theorem C4_trend_overlay
    (data : list Row) (params : list Param.t)
    (statistics : StatsObject.t float) (i : nat) (p : Param.t) :
  params !! i = Some p ->
  (forall type, data <> [] -> exists grid yAxis xAxis,
     SVGChart data params statistics type
     = svg [grid; yAxis; xAxis;
            g (without_null (imap (series data params type) params)
               ++ without_null (trendLines data params statistics type))])
  /\ (forall type, type <> "line" -> trendLines data params statistics type = [])
  /\ trendLines data params statistics "line" !! i
     = Some (trendLine data params statistics i p)
  /\ match stats_at statistics (Param.name p) with
     | None => trendLine data params statistics i p = None
     | Some stats =>
         ((Math_abs (Stats.trend stats) <? literal 1 (-1)) = true ->
          trendLine data params statistics i p = None)
         /\ ((Math_abs (Stats.trend stats) >? literal 1 (-1)) = true ->
             trendLine data params statistics i p
             = Some (line #0
                       (scaleY data params
                          (Stats.mean stats
                           - Stats.trend stats * (of_nat (length data) - #1) / #2))
                       chartWidth
                       (scaleY data params
                          (Stats.mean stats
                           + Stats.trend stats * (of_nat (length data) - #1) / #2))
                       (color_of i) (Some "8") (Some (literal 5 (-1)))))
     end.
Proof.
  intros Hi. split.
  { intros type Hd. apply Binary64Facts.SVGChart_data_group; [done|].
    intros ->. done. }
  split; [apply Binary64Facts.trendLines_other|].
  split; [by apply Binary64Facts.trendLines_lookup|].
  unfold trendLine. destruct (stats_at statistics (Param.name p)) as [stats|]; [|done].
  split.
  - by intros ->.
  - intros Hgt. apply Binary64Facts.ltb_asym in Hgt. cbn [ltb binary64] in *. by rewrite Hgt.
Qed.

Lemma C4_trend_overlay_witness :
  let data := scenario_rows in
  let params := scenario_params in
  let statistics := Binary64.statistics params data in
  trendLines data params statistics "line" !! 0%nat
  = Some (Some (line 0 240 610 180 "#6366f1" (Some "8") (Some 0.5%float))).
Proof.
  cbv zeta.
  pose proof (C4_trend_overlay scenario_rows scenario_params
                (Binary64.statistics scenario_params scenario_rows) 0
                (Param.mk "Temp" (Some "C")) eq_refl) as (_ & _ & Hline & _).
  rewrite Hline. vm_compute. reflexivity.
Defined.

(** ** C5: the bars of the bar chart *)

(** C5.  In bar mode every parameter gets exactly one bar per numeric cell,
    each of width (chartWidth / rows / series) * 0.8.  Their placement is
    evaluated where it goes wrong: for the rows "abc", "5", "7" the valid
    points of x are those of rows 1 and 2, at x = 305 and x = 610, and the
    two bars are placed by their position in the filtered array, at the
    locations of rows 0 and 1 (x = 0 and x = 305, less half a bar), while the
    scatter branch of the same function, like the line branch, uses the
    point's own x. *)
Theorem C5_bar_placed_by_filtered_index :
  (forall (data : list Row) (params : list Param.t) (i : nat) (p : Param.t),
     exists bars,
       series data params "bar" i p = Some (g bars)
       /\ length bars = length (column data (Param.name p))
       /\ Forall (fun bar => exists x y h fill opacity,
                    bar = rect x y ((chartWidth / of_nat (length data)
                                     / of_nat (length params)) * literal 8 (-1))
                               h fill opacity) bars)
  /\ (let data := column_x ["abc"; "5"; "7"] in
      let params := [param "x"] in
      let barWidth := (chartWidth / of_nat 3 / of_nat 1) * literal 8 (-1) in
      map Point.x (filter (fun p => Point.valid p = true)
                          (validPoints data params (param "x")))
      = [305%float; 610%float]
      /\ scaleX data 0 = 0%float /\ scaleX data 1 = 305%float
      /\ scaleX data 2 = 610%float
      /\ series data params "bar" 0 (param "x")
         = Some (g [rect (0 - barWidth * of_nat 1 / #2 + of_nat 0 * barWidth)
                         240 barWidth 0 "#6366f1" (literal 8 (-1));
                    rect (305 - barWidth * of_nat 1 / #2 + of_nat 0 * barWidth)
                         0 barWidth 240 "#6366f1" (literal 8 (-1))])
      /\ series data params "scatter" 0 (param "x")
         = Some (g [circle 305 240 "6" "#6366f1" (Some (literal 7 (-1)));
                    circle 610 0 "6" "#6366f1" (Some (literal 7 (-1)))])
      /\ exists grid yAxis xAxis,
           renderChart params data ["x"] "bar"
           = svg [grid; yAxis; xAxis;
                  g [g [rect (0 - barWidth * of_nat 1 / #2 + of_nat 0 * barWidth)
                             240 barWidth 0 "#6366f1" (literal 8 (-1));
                        rect (305 - barWidth * of_nat 1 / #2 + of_nat 0 * barWidth)
                             0 barWidth 240 "#6366f1" (literal 8 (-1))]]]).
Proof.
  split; [apply Binary64Facts.bars_count_width|].
  cbv zeta. repeat apply conj; try (vm_compute; reflexivity).
  do 3 eexists. vm_compute. reflexivity.
Qed.

(** ** C6: pairs with fewer than two paired values *)

(** C6.  Whenever two parameters both have statistics and the shorter of
    their filtered sequences has fewer than two elements (one value for A
    and five for B, say), the correlations hold no entry for the pair, in
    either order, so none with value 0 either. *)
Theorem C6_insufficient_pair_omitted
    (params : list Param.t) (data : list Row) (p1 p2 : string) (s1 s2 : Stats.t float) :
  stats_at (statistics params data) p1 = Some s1 ->
  stats_at (statistics params data) p2 = Some s2 ->
  (Nat.min (length (Stats.values s1)) (length (Stats.values s2)) < 2)%nat ->
  ~ exists key e, correlationsOf params data !! key = Some e
      /\ ((Corr.param1 e = p1 /\ Corr.param2 e = p2)
          \/ (Corr.param1 e = p2 /\ Corr.param2 e = p1)).
Proof.
  intros H1 H2 Hmin (key & e & He & Hpair).
  apply correlations_ok in He as (t1 & t2 & Ht1 & Ht2 & Hn & _).
  destruct Hpair as [[E1 E2]|[E1 E2]]; rewrite E1 in Ht1; rewrite E2 in Ht2;
    simplify_eq; lia.
Qed.

Lemma C6_insufficient_pair_omitted_witness :
  (exists a b,
     stats_at (statistics [param "A"; param "B"] one_and_five_rows) "A" = Some a
     /\ stats_at (statistics [param "A"; param "B"] one_and_five_rows) "B" = Some b
     /\ length (Stats.values a) = 1%nat /\ length (Stats.values b) = 5%nat
     /\ ~ exists key e,
          correlationsOf [param "A"; param "B"] one_and_five_rows !! key = Some e
          /\ ((Corr.param1 e = "A" /\ Corr.param2 e = "B")
              \/ (Corr.param1 e = "B" /\ Corr.param2 e = "A")))
  /\ correlationsOf [param "A"; param "B"] one_and_five_rows = ∅.
Proof.
  split; [|vm_compute; reflexivity].
  eexists _, _. split; [vm_compute; reflexivity|]. split; [vm_compute; reflexivity|].
  split; [reflexivity|]. split; [reflexivity|].
  eapply (C6_insufficient_pair_omitted [param "A"; param "B"] one_and_five_rows "A" "B").
  - vm_compute; reflexivity.
  - vm_compute; reflexivity.
  - vm_compute. lia.
Defined.

(** ** C7: the empty state of the chart *)

(** C7.  [SVGChart] returns its placeholder, and no svg, whenever the rows
    or the charted parameters are empty; [ChartsTab] returns its own
    placeholder when no parameter is selected, and passes on that of
    [SVGChart] when the rows are empty; so does the chart of the modal. *)
Theorem C7_empty_state (params : list Param.t) (data : list Row)
    (statistics : StatsObject.t float)
    (selectedParams : list string) (type : string) :
  SVGChart [] params statistics type = placeholder "No data to display"
  /\ SVGChart data [] statistics type = placeholder "No data to display"
  /\ ChartsTab params data statistics [] type
     = placeholder "Select parameters to visualize"
  /\ (exists message,
        ChartsTab params [] statistics selectedParams type = placeholder message)
  /\ (exists message, renderChart params [] selectedParams type = placeholder message)
  /\ (exists message, renderChart params data [] type = placeholder message).
Proof.
  repeat split; try done.
  - unfold SVGChart. by rewrite orb_true_r.
  - unfold ChartsTab. destruct (0 <? length selectedParams)%nat; eauto.
  - unfold renderChart, ChartsTab. destruct (0 <? length selectedParams)%nat; eauto.
  - unfold renderChart, ChartsTab. simpl. eauto.
Qed.

(** ** C8: the order of min, median, mean and max *)

(** C8 fails on the program as stated: for three cells "0.1" the binary64
    sum 0.1 + 0.1 + 0.1 is 0.30000000000000004 and the mean
    0.10000000000000002, above the maximum 0.1; and for two cells "1e308"
    the sum of the two middle values overflows, so that median and mean are
    Infinity. *)
Lemma C8_mean_above_max :
  (exists st,
     StatsObject.own (statistics [param "x"] (column_x ["0.1"; "0.1"; "0.1"])) !! "x" = Some (Some st)
     /\ Stats.max st = literal 1 (-1)
     /\ Stats.mean st = next_up (literal 1 (-1))
     /\ PrimFloat.ltb (Stats.max st) (Stats.mean st) = true
     /\ PrimFloat.leb (Stats.mean st) (Stats.max st) = false)
  /\ (exists st,
        StatsObject.own (statistics [param "x"] (column_x ["1e308"; "1e308"])) !! "x" = Some (Some st)
        /\ Stats.max st = literal 1 308
        /\ Stats.median st = infinity /\ Stats.mean st = infinity
        /\ PrimFloat.leb (Stats.median st) (Stats.max st) = false).
Proof.
  split; eexists; (split; [vm_compute; reflexivity|]); vm_compute; repeat split.
Qed.

(** C8 (amended).  In binary64, in every statistics object of the program
    each value lies between min and max (so min <= max), and when n is odd
    the median is one of the values, hence min <= median <= max.  In exact
    arithmetic, for every non-empty value sequence, min <= median <= max
    also when n is even, and min <= mean <= max. *)
Theorem C8_order :
  (forall (params : list Param.t) (data : list Row) (name : string)
          (st : Stats.t float),
     stats_at (statistics params data) name = Some st ->
     (forall v, v ∈ Stats.values st ->
        PrimFloat.leb (Stats.min st) v = true /\ PrimFloat.leb v (Stats.max st) = true)
     /\ PrimFloat.leb (Stats.min st) (Stats.max st) = true
     /\ (Stats.n st mod 2 = 1%nat ->
         Stats.median st ∈ Stats.values st
         /\ PrimFloat.leb (Stats.min st) (Stats.median st) = true
         /\ PrimFloat.leb (Stats.median st) (Stats.max st) = true))
  /\ (forall (v0 : R) (rest : list R),
        exists st, paramStats (v0 :: rest) = Some st
          /\ (Stats.min st <= Stats.median st <= Stats.max st)%R
          /\ (Stats.min st <= Stats.mean st <= Stats.max st)%R).
Proof.
  split.
  { intros params data name st Hst.
    destruct (Binary64Facts.statistics_order _ _ _ _ Hst) as (Hall & Hmm & Hodd).
    split; [done|]. split; [done|].
    intros Hn. specialize (Hodd Hn). split; [done|]. by apply Hall. }
  intros v0 rest.
  eexists. split; [reflexivity|]. cbn [Stats.min Stats.max Stats.median Stats.mean].
  set (V := v0 :: rest). set (n := length V).
  assert (Hn : (0 < n)%nat) by (unfold n, V; simpl; lia).
  pose proof (ExactFacts.min_max_bounds v0 rest) as Hb. fold V in Hb.
  pose proof (ExactFacts.half_lt n Hn) as Hhalf.
  split.
  - destruct (n mod 2 =? 0)%nat.
    + assert (Ha := Hb _ (at_index_sorted_elem (fun a b : R => (a - b)%num) V (n / 2 - 1)
                            ltac:(fold n; lia))).
      assert (Hc := Hb _ (at_index_sorted_elem (fun a b : R => (a - b)%num) V (n / 2)
                            ltac:(fold n; lia))).
      cbn [add div Math_min2 Math_max2 exact]. rewrite ExactFacts.two_exact. lra.
    + apply Hb, at_index_sorted_elem. by fold n.
  - rewrite ExactFacts.sum_of_exact, ExactFacts.of_nat_exact.
    cbn [div Math_min2 Math_max2 exact].
    pose proof (ExactFacts.Rsum_bounds V _ _ Hb) as Hs. fold n in Hs.
    assert (0 < INR n)%R by (apply lt_0_INR; lia).
    split.
    + apply Rmult_le_reg_l with (INR n); [done|]. field_simplify; lra.
    + apply Rmult_le_reg_l with (INR n); [done|]. field_simplify; lra.
Qed.

Lemma C8_order_witness :
  exists st, StatsObject.own (statistics scenario_params scenario_rows) !! "Temp" = Some (Some st)
    /\ Stats.median st ∈ Stats.values st
    /\ PrimFloat.leb (Stats.min st) (Stats.median st) = true
    /\ PrimFloat.leb (Stats.median st) (Stats.max st) = true.
Proof.
  eexists. split; [vm_compute; reflexivity|].
  eapply (proj1 C8_order scenario_params scenario_rows "Temp");
    [vm_compute; reflexivity|reflexivity].
Defined.

(** ** C9: the trend *)

(** C9 fails on the program as stated: the seven cells 8.7, 10.7, ..., 20.7
    parse to binary64 numbers that differ by exactly 2, and the computed
    trend is 2.0000000000000004. *)
Lemma C9_trend_rounded :
  arithmetic_exactly 2 (column (column_x step2_cells) "x") = true
  /\ exists st,
       StatsObject.own (statistics [param "x"] (column_x step2_cells)) !! "x" = Some (Some st)
       /\ Stats.values st = column (column_x step2_cells) "x"
       /\ Stats.trend st = next_up 2
       /\ PrimFloat.eqb (Stats.trend st) 2 = false.
Proof.
  split; [vm_compute; reflexivity|].
  eexists. split; [vm_compute; reflexivity|]. vm_compute. repeat split.
Qed.

(** C9 (amended).  In exact arithmetic: the trend of an arithmetic sequence
    of at least two values with common difference d is d (hence positive
    when the sequence increases); the trend of a constant sequence is 0; the
    trend of a single value is 0; and for a sequence V of at least two
    values the trend is the covariance sum over the variance sum of the
    values against their 0-based index, the slope of the least-squares
    line: with intercept mean - trend * (n - 1) / 2 it has a squared error no
    larger than that of any line a + b * index.  In binary64 the trend of a
    single value is 0, the trend of 1, 2, 3, 4, 5 is 1 and that of 7, 7, 7
    is 0. *)
Theorem C9_trend_exact :
  (forall (a d : R) (m : nat),
     exists st, paramStats (arithmetic a d (S (S m))) = Some st
       /\ Stats.trend st = d)
  /\ (forall (c : R) (m : nat),
        exists st, paramStats (replicate (S m) c) = Some st
          /\ Stats.trend st = 0%R)
  /\ (forall v : R, exists st, paramStats [v] = Some st /\ Stats.trend st = 0%R)
  /\ (forall (v0 v1 : R) (rest : list R) (a b : R),
        let V := v0 :: v1 :: rest in
        exists st, paramStats V = Some st
          /\ Stats.trend st = (cov_sum V / var_sum (length V))%R
          /\ (squared_error V (Stats.mean st - Stats.trend st * xMean_of (length V))
                            (Stats.trend st)
              <= squared_error V a b)%R)
  /\ (forall v : float,
        exists st, paramStats [v] = Some st /\ Stats.trend st = 0%float)
  /\ (exists st,
        StatsObject.own (statistics [param "x"] (column_x ["1"; "2"; "3"; "4"; "5"])) !! "x"
        = Some (Some st) /\ Stats.trend st = 1%float)
  /\ (exists st,
        StatsObject.own (statistics [param "x"] (column_x ["7"; "7"; "7"])) !! "x" = Some (Some st)
        /\ Stats.trend st = 0%float).
Proof.
  repeat apply conj.
  - intros a d m.
    destruct (paramStats_is_Some (arithmetic a d (S (S m)))) as [st Hst]; [done|].
    exists st. split; [done|]. apply (ExactFacts.arithmetic_trend a d (S (S m))); [lia|done].
  - intros c m.
    destruct (paramStats_is_Some (replicate (S m) c)) as [st Hst]; [done|].
    exists st. split; [done|]. destruct m as [|m].
    + by apply (ExactFacts.trend_short c).
    + rewrite <- (ExactFacts.arithmetic_constant c (S (S m))) in Hst.
      apply (ExactFacts.arithmetic_trend c 0 (S (S m))); [lia|done].
  - intros v. eexists. split; [reflexivity|]. by apply (ExactFacts.trend_short v).
  - intros v0 v1 rest a b V.
    destruct (paramStats_is_Some V) as [st Hst]; [done|].
    assert (2 <= length V)%nat by (unfold V; simpl; lia).
    exists st. split; [done|]. split.
    + by apply ExactFacts.trend_exact.
    + by apply ExactFacts.trend_least_squares.
  - intros v. eexists. split; [reflexivity|]. reflexivity.
  - eexists. split; [vm_compute; reflexivity|]. vm_compute. reflexivity.
  - eexists. split; [vm_compute; reflexivity|]. vm_compute. reflexivity.
Qed.

(** ** C10: colliding keys *)

(** C10.  For the parameters a, b-c, a-b, c, each with two numeric cells, the
    pairs (a, b-c) and (a-b, c) are two of the six pairs of the loops, all
    six reach the assignment, and both are stored under the key "a-b-c": the
    correlations hold five entries, the one under "a-b-c" is that of
    (a-b, c), and no entry is left for (a, b-c). *)
Theorem C10_hyphen_key_collision :
  let names := map Param.name hyphen_params in
  let stats := statistics hyphen_params hyphen_rows in
  let corrs := correlationsOf hyphen_params hyphen_rows in
  pairs names
  = [("a", "b-c"); ("a", "a-b"); ("a", "c"); ("b-c", "a-b"); ("b-c", "c"); ("a-b", "c")]
  /\ forallb (qualifying stats) (pairs names) = true
  /\ corr_key "a" "b-c" = "a-b-c" /\ corr_key "a-b" "c" = "a-b-c"
  /\ size corrs = 5%nat
  /\ (exists e, corrs !! "a-b-c" = Some e
        /\ Corr.param1 e = "a-b" /\ Corr.param2 e = "c")
  /\ forallb (fun entry => negb (String.eqb (Corr.param1 (snd entry)) "a"
                               && String.eqb (Corr.param2 (snd entry)) "b-c"))
             (map_to_list corrs) = true.
Proof.
  cbv zeta. repeat apply conj; try (vm_compute; reflexivity).
  eexists. split; [vm_compute; reflexivity|]. split; reflexivity.
Qed.

(** ** Further properties of the kernel *)

(** X2.  The two nested loops of the correlations visit exactly the pairs
    of names at positions i < j of the parameter list. *)
Theorem X2_loop_pairs (params : list Param.t) (p1 p2 : string) :
  (p1, p2) ∈ pairs (map Param.name params)
  <-> exists i j, (i < j)%nat
        /\ Param.name <$> params !! i = Some p1
        /\ Param.name <$> params !! j = Some p2.
Proof.
  rewrite pairs_spec. by setoid_rewrite list_lookup_fmap.
Qed.

(** X3.  Every entry of the correlations of the program is stored under
    the key made of its two names joined by a hyphen, belongs to two
    parameters that both have statistics with at least two values each,
    carries the value the loop body computes from those statistics, and is
    labelled strong above 0.7 in magnitude, moderate above 0.4 and weak
    otherwise. *)
Theorem X3_correlation_entries
    (params : list Param.t) (data : list Row) (key : string) (e : Corr.t float) :
  correlationsOf params data !! key = Some e ->
  exists s1 s2,
    stats_at (statistics params data) (Corr.param1 e) = Some s1
    /\ stats_at (statistics params data) (Corr.param2 e) = Some s2
    /\ (2 <= Nat.min (length (Stats.values s1)) (length (Stats.values s2)))%nat
    /\ key = Corr.param1 e +:+ "-" +:+ Corr.param2 e
    /\ Corr.value e = corr_value s1 s2
    /\ Corr.strength e
       = if Math_abs (Corr.value e) >? literal 7 (-1) then strong
         else if Math_abs (Corr.value e) >? literal 4 (-1) then moderate
         else weak.
Proof. intros He. by apply correlations_ok in He. Qed.

Lemma X3_correlation_entries_witness :
  exists e s1 s2,
    correlationsOf scenario_params scenario_rows !! "Temp-Yield" = Some e
    /\ stats_at (statistics scenario_params scenario_rows) (Corr.param1 e) = Some s1
    /\ stats_at (statistics scenario_params scenario_rows) (Corr.param2 e) = Some s2
    /\ Corr.value e = corr_value s1 s2.
Proof.
  eexists.
  destruct (X3_correlation_entries scenario_params scenario_rows "Temp-Yield"
              (Corr.mk "Temp" "Yield" 1%float strong))
    as (s1 & s2 & H1 & H2 & _ & _ & Hv & _); [vm_compute; reflexivity|].
  exists s1, s2. split; [vm_compute; reflexivity|]. done.
Defined.

(** X4.  Reading the statistics of the program at the name of a parameter
    gives the statistics object of that name's filtered column, or nothing
    when the column has no numeric cell; this holds for the name __proto__
    too, whose value is kept as the prototype of the object.  For any other
    name the object has a property of its own exactly when the name is that
    of a parameter, holding that value (null for an empty column), and under
    __proto__ it never has a statistics object as a property of its own. *)
Theorem X4_statistics_entries (params : list Param.t) (data : list Row) (name : string) :
  (name ∈ map Param.name params ->
     stats_at (statistics params data) name = paramStats (column data name))
  /\ (name <> "__proto__" ->
      StatsObject.own (statistics params data) !! name
      = if decide (name ∈ map Param.name params)
        then Some (paramStats (column data name)) else None)
  /\ (forall st, StatsObject.own (statistics params data) !! "__proto__" <> Some (Some st)).
Proof.
  split; [|split].
  - intros Hin. unfold statistics. by rewrite statisticsOf_lookup, decide_True.
  - apply statisticsOf_own.
  - intros st Hst.
    destruct (statisticsOf_own_proto (column data) params) as [_ Hown].
    fold (statistics params data) in Hown.
    destruct Hown as [_ Hnull]; [by rewrite Hst|]. rewrite Hnull in Hst. done.
Qed.

Lemma X4_statistics_entries_witness :
  let params := [param "__proto__"; param "x"] in
  let data := [row_of [("__proto__", "4"); ("x", "1")]; row_of [("__proto__", "6")]] in
  stats_at (statistics params data) "__proto__" = paramStats [4; 6]%float
  /\ StatsObject.own (statistics params data) !! "__proto__" = None
  /\ StatsObject.own (statistics params data) !! "x" = Some (paramStats [1%float]).
Proof.
  intros params data.
  destruct (X4_statistics_entries params data "__proto__") as (Hread & _ & _).
  destruct (X4_statistics_entries params data "x") as (_ & Hown & _).
  split; [|split].
  - rewrite Hread; [reflexivity|]. apply list_elem_of_here.
  - vm_compute. reflexivity.
  - rewrite Hown; [reflexivity|done].
Defined.

(** ** Further properties: keys without collision, the correlation matrix *)

(** X5.  When no parameter name contains a hyphen, every pair of the loop
    whose two parameters have statistics with at least two values each has
    its entry in the correlations, under the key of its two names joined by
    a hyphen, carrying these names, the value the loop body computes from
    the two statistics and the label of that value: no other pair
    overwrites it. *)
Theorem X5_hyphen_free_pairs_are_stored
    (params : list Param.t) (data : list Row) (p1 p2 : string) (s1 s2 : Stats.t float) :
  Forall (fun p => hyphen_free (Param.name p) = true) params ->
  (p1, p2) ∈ pairs (map Param.name params) ->
  stats_at (statistics params data) p1 = Some s1 ->
  stats_at (statistics params data) p2 = Some s2 ->
  (2 <= Nat.min (length (Stats.values s1)) (length (Stats.values s2)))%nat ->
  correlationsOf params data !! (p1 +:+ "-" +:+ p2)
  = Some (Corr.mk p1 p2 (corr_value s1 s2) (strength_of (corr_value s1 s2))).
Proof.
  intros Hfree Hin H1 H2 Hn.
  apply (correlations_complete (statistics params data)); try done.
  apply Forall_forall. intros [q1 q2] Hq. cbn.
  apply pairs_spec in Hq as (i & j & _ & Hi & _).
  rewrite list_lookup_fmap in Hi.
  destruct (params !! i) as [p|] eqn:Hp; [|done]. injection Hi as <-.
  rewrite Forall_forall in Hfree. apply Hfree. by eapply list_elem_of_lookup_2.
Qed.

Lemma X5_hyphen_free_pairs_are_stored_witness :
  exists s1 s2,
    stats_at (statistics scenario_params scenario_rows) "Temp" = Some s1
    /\ stats_at (statistics scenario_params scenario_rows) "Yield" = Some s2
    /\ correlationsOf scenario_params scenario_rows !! "Temp-Yield"
       = Some (Corr.mk "Temp" "Yield" (corr_value s1 s2) (strength_of (corr_value s1 s2))).
Proof.
  do 2 eexists. split; [vm_compute; reflexivity|]. split; [vm_compute; reflexivity|].
  apply (X5_hyphen_free_pairs_are_stored scenario_params scenario_rows "Temp" "Yield").
  - repeat constructor.
  - vm_compute. apply list_elem_of_here.
  - vm_compute; reflexivity.
  - vm_compute; reflexivity.
  - vm_compute. lia.
Defined.


